(** * The doctor-access OTP flow and the owner-notification gate

    A shallow embedding of [medical/views.py] (the [doctor_access] view, the
    four session-protected views and [_notify_owner_if_needed]) together
    with the [AccessLog] rows of [medical/models.py].

    Conventions of the embedding:
    - Python [str] values are [string]s whose characters are code points
      below 256;
    - Python [int] values are [Z];
    - an aware [datetime] is the number of microseconds since the epoch, a
      [Z]; [timedelta(minutes=m)] is [minutes m].  The [isoformat] /
      [fromisoformat] pair through which [expires_at] travels in the
      session is the identity on aware datetimes and is not represented;
    - [request.session] is kept as two [gmap]s, one for each of the two
      disjoint families of keys the views use: the keys [otp_pending_...],
      under which only OTP dictionaries are stored, and the keys
      [doctor_access_...], under which only [True] and strings are stored.
      The keys are the strings the source builds;
    - the collaborators whose behaviour the views observe ([timezone.now],
      [secrets.randbelow], [send_mail], the database) are explicit
      arguments of the functions that call them. *)

From Stdlib Require Import ZArith Lia Bool Ascii String List.
From stdpp Require Import base option strings gmap.

Local Open Scope string_scope.
Local Open Scope Z_scope.

(** ** Text *)

Module Text.

(** [str.isspace] on code points below 256. *)
Definition is_space (c : ascii) : bool :=
  let n := N_of_ascii c in
  ((9 <=? n) && (n <=? 13) || (28 <=? n) && (n <=? 32)
   || (n =? 133) || (n =? 160))%N.

Fixpoint lstrip (s : string) : string :=
  match s with
  | EmptyString => EmptyString
  | String c r => if is_space c then lstrip r else s
  end.

(** [rstrip] as a right-to-left pass: a space is dropped when everything
    after it has been dropped. *)
Fixpoint rstrip (s : string) : string :=
  match s with
  | EmptyString => EmptyString
  | String c r =>
      match rstrip r with
      | EmptyString => if is_space c then EmptyString else String c EmptyString
      | r' => String c r'
      end
  end.

(** [s.strip()] *)
Definition strip (s : string) : string := rstrip (lstrip s).

(** [c in s] for a one-character [c]. *)
Fixpoint contains (c : ascii) (s : string) : bool :=
  match s with
  | EmptyString => false
  | String d r => Ascii.eqb c d || contains c r
  end.

(** Python truth value of a [str]. *)
Definition nonempty (s : string) : bool :=
  match s with EmptyString => false | String _ _ => true end.

(** [a or b] on strings. *)
Definition str_or (a b : string) : string := if nonempty a then a else b.

(** [s[:n]] for [n >= 0]. *)
Fixpoint take (n : nat) (s : string) : string :=
  match n, s with
  | S k, String c r => String c (take k r)
  | _, _ => EmptyString
  end.

Definition digit_char (d : Z) : ascii := ascii_of_N (48 + Z.to_N d).

Definition is_digit (c : ascii) : bool :=
  let n := N_of_ascii c in ((48 <=? n) && (n <=? 57))%N.

(** The decimal digits of [n >= 0], most significant first, in front of
    [acc]. *)
Fixpoint dec_digits (fuel : nat) (n : Z) (acc : string) : string :=
  match fuel with
  | O => acc
  | S f =>
      let acc' := String (digit_char (n mod 10)) acc in
      if n / 10 =? 0 then acc' else dec_digits f (n / 10) acc'
  end.

(** [str(n)] for [n >= 0]; the fuel exceeds the number of digits. *)
Definition dec (n : Z) : string :=
  dec_digits (S (Z.to_nat (Z.log2 n))) n EmptyString.

Fixpoint zeros (k : nat) : string :=
  match k with O => EmptyString | S k' => String "0" (zeros k') end.

(** [s.rjust(width, '0')] *)
Definition zero_pad (width : nat) (s : string) : string :=
  zeros (width - String.length s) +:+ s.

(** [f"{n:06d}"]: the sign, when there is one, counts in the width. *)
Definition format_06d (n : Z) : string :=
  if n <? 0 then String "-" (zero_pad 5 (dec (- n))) else zero_pad 6 (dec n).

(** The integer a string of decimal digits denotes. *)
Fixpoint dec_value_from (v : Z) (s : string) : Z :=
  match s with
  | EmptyString => v
  | String c r => dec_value_from (10 * v + (Z.of_N (N_of_ascii c) - 48)) r
  end.

Definition dec_value (s : string) : Z := dec_value_from 0 s.

Fixpoint all_digits (s : string) : bool :=
  match s with
  | EmptyString => true
  | String c r => is_digit c && all_digits r
  end.

End Text.

(** ** Settings

    [settings.py] sets none of the three tunables, so each [getattr] in the
    views falls back on its default; a deployment may set them. *)

Record settings := {
  OTP_TTL_MINUTES : option Z;
  OTP_MAX_ATTEMPTS : option Z;
  ACCESS_NOTIFY_COOLDOWN_MINUTES : option Z;
  DEFAULT_FROM_EMAIL : option string
}.

(** [src/settings.py] *)
Definition settings_py : settings :=
  {| OTP_TTL_MINUTES := None; OTP_MAX_ATTEMPTS := None;
     ACCESS_NOTIFY_COOLDOWN_MINUTES := None; DEFAULT_FROM_EMAIL := None |}.

(** [getattr(settings, name, dflt)] *)
Definition getattr {A} (field : option A) (dflt : A) : A := default dflt field.

(** [timedelta(minutes=m)], in microseconds. *)
Definition minutes (m : Z) : Z := m * 60000000.
Definition seconds (n : Z) : Z := n * 1000000.

(** ** Models ([medical/models.py]) *)

Record MedicalProfile := {
  pk : Z;
  full_name : string;
  national_id : string;
  owner_email : string
}.

Record AccessLog := {
  log_id : Z;
  profile_id : Z;
  event_type : string;
  viewer_email : string;
  reason : string;
  ip_address : option string;
  user_agent : string;
  created_at : Z;
  notified : bool
}.

(** [EVENT_CHOICES] and the [get_event_type_display] Django derives from
    it: a value outside the choices is displayed as it is. *)
Definition EVENT_CHOICES : list (string * string) :=
  [ ("public_view", "Public Profile Viewed");
    ("doctor_view", "Doctor Full View");
    ("doctor_health_view", "Doctor Health Monitoring View");
    ("download_html", "Doctor Download HTML");
    ("download_pdf", "Doctor Download PDF") ].

Fixpoint assoc (k : string) (l : list (string * string)) : option string :=
  match l with
  | [] => None
  | (k', v) :: r => if String.eqb k k' then Some v else assoc k r
  end.

Definition get_event_type_display (e : AccessLog) : string :=
  default (event_type e) (assoc (event_type e) EVENT_CHOICES).

Definition set_notified (b : bool) (e : AccessLog) : AccessLog :=
  {| log_id := log_id e; profile_id := profile_id e; event_type := event_type e;
     viewer_email := viewer_email e; reason := reason e;
     ip_address := ip_address e; user_agent := user_agent e;
     created_at := created_at e; notified := b |}.

(** ** The collaborators *)

(** What one call of [send_mail(..., fail_silently=True)] does: it returns
    1 after a delivery, it returns 0 when the mail backend failed and
    [fail_silently] hid the failure, or it raises an error that
    [fail_silently] does not cover. *)
Inductive send_result := Delivered | FailedSilently | SendRaised.

(** Whether a database statement goes through or raises. *)
Inductive db_result := DbOk | DbError.

Inductive mail_body :=
| OtpBody (full_name national_id code : string) (ttl_minutes : Z)
| AccessBody (full_name event : string) (when_ : Z)
    (viewer reason ip user_agent : string).

(** The arguments of one call of [send_mail]; the message text is kept as
    the values its f-string interpolates. *)
Record mail := {
  subject : string;
  message : mail_body;
  from_email : option string;
  recipient_list : list string
}.

(** ** Session and request *)

(** The dictionary [doctor_access] keeps under the OTP key. *)
Record pending := {
  email : string;
  code : string;
  expires_at : Z;
  attempts : Z
}.

(** What the views keep under the [doctor_access_...] keys. *)
Inductive session_value :=
| VBool (b : bool)
| VStr (s : string).

Record session := {
  otp : gmap string pending;
  access : gmap string session_value
}.

Definition new_session : session := {| otp := ∅; access := ∅ |}.

Definition set_otp (k : string) (p : pending) (s : session) : session :=
  {| otp := <[k := p]> (otp s); access := access s |}.

Definition del_otp (k : string) (s : session) : session :=
  {| otp := delete k (otp s); access := access s |}.

Definition set_access (k : string) (v : session_value) (s : session) : session :=
  {| otp := otp s; access := <[k := v]> (access s) |}.

(** Python truth value. *)
Definition truthy (v : session_value) : bool :=
  match v with
  | VBool b => b
  | VStr s => Text.nonempty s
  end.

(** [str(v)], the value a session entry takes in a text column. *)
Definition text_of (v : session_value) : string :=
  match v with
  | VStr s => s
  | VBool true => "True"
  | VBool false => "False"
  end.

Record request := {
  method : string;
  POST : gmap string string;
  META : gmap string string
}.

(** [request.POST.get(name) or ''] *)
Definition post_or_empty (rq : request) (name : string) : string :=
  default "" (POST rq !! name).

Record context := {
  otp_pending : bool;
  email_value : string;
  otp_info : option string;
  error : option string
}.

Inductive response :=
| Render (template : string) (ctx : context) (status : Z)
| Redirect (view : string) (national_id : string)
| Page (template : string)
| Attachment (content_type : string) (filename : string)
| Plain (status : Z).

(** A view returns a response or lets an exception escape. *)
Inductive outcome :=
| Returned (r : response)
| Raised (exn : string).

(** [get_object_or_404(MedicalProfile, national_id=national_id)] *)
Definition get_object_or_404 (profiles : list MedicalProfile) (nid : string)
  : option MedicalProfile :=
  find (fun p => String.eqb (national_id p) nid) profiles.

(** ** Utilities *)

Fixpoint before_comma (s : string) : string :=
  match s with
  | EmptyString => EmptyString
  | String c r => if Ascii.eqb c "," then EmptyString else String c (before_comma r)
  end.

Definition _client_ip (rq : request) : option string :=
  match META rq !! "HTTP_X_FORWARDED_FOR" with
  | Some xff =>
      if Text.nonempty xff then Some (Text.strip (before_comma xff))
      else META rq !! "REMOTE_ADDR"
  | None => META rq !! "REMOTE_ADDR"
  end.

Definition _user_agent (rq : request) : string :=
  default "" (META rq !! "HTTP_USER_AGENT").

(** ** Session keys *)

Definition _otp_key (nid : string) : string := "otp_pending_" +:+ nid.
Definition access_key (nid : string) : string := "doctor_access_" +:+ nid.
Definition access_email_key (nid : string) : string :=
  "doctor_access_" +:+ nid +:+ "_email".
Definition access_reason_key (nid : string) : string :=
  "doctor_access_" +:+ nid +:+ "_reason".

(** ** [doctor_access]: the e-mail OTP *)

Definition with_error (msg : string) (c : context) : context :=
  {| otp_pending := otp_pending c; email_value := email_value c;
     otp_info := otp_info c; error := Some msg |}.

Definition with_pending (b : bool) (e : string) (c : context) : context :=
  {| otp_pending := b; email_value := e;
     otp_info := otp_info c; error := error c |}.

Definition with_info (msg : string) (c : context) : context :=
  {| otp_pending := otp_pending c; email_value := email_value c;
     otp_info := Some msg; error := error c |}.

(** [pending['attempts'] = n] *)
Definition set_attempts (n : Z) (p : pending) : pending :=
  {| email := email p; code := code p; expires_at := expires_at p;
     attempts := n |}.

Definition access_template : string := "medical/doctor_access.html".

(** The context the view starts from (lines 139-147). *)
Definition initial_context (profile : MedicalProfile) (s : session) : context :=
  match otp s !! _otp_key (national_id profile) with
  | Some p =>
      {| otp_pending := true; email_value := email p;
         otp_info := None; error := None |}
  | None =>
      {| otp_pending := false; email_value := "";
         otp_info := None; error := None |}
  end.

(** The [send_otp] action (lines 153-183) on the stripped [email] field.
    [rand] is the value [secrets.randbelow(1000000)] returned, [sent] what
    [send_mail] did. *)
Definition send_otp (cfg : settings) (now rand : Z) (sent : send_result)
    (email : string) (profile : MedicalProfile) (context : context)
    (s : session) : outcome * session * list mail :=
  if negb (Text.nonempty email) || negb (Text.contains "@" email) then
    (Returned (Render access_template
       (with_error "Enter a valid email address to receive the OTP." context) 400),
     s, [])
  else
    let code := Text.format_06d rand in
    let expires_at := now + minutes (getattr (OTP_TTL_MINUTES cfg) 5) in
    let s' :=
      set_otp (_otp_key (national_id profile))
        {| email := email; code := code;
           expires_at := expires_at; attempts := 0 |} s in
    let m :=
      {| subject := "Your One-Time Access Code";
         message := OtpBody (full_name profile) (national_id profile) code
                            (getattr (OTP_TTL_MINUTES cfg) 5);
         from_email := DEFAULT_FROM_EMAIL cfg;
         recipient_list := [email] |} in
    match sent with
    | SendRaised => (Raised "send_mail", s', [m])
    | _ =>
        (Returned (Render access_template
           (with_info ("An OTP has been sent to " +:+ email +:+ ". Please enter it below.")
              (with_pending true email context)) 200),
         s', [m])
    end.

(** The [verify_otp] action from line 189 on; [code_input] and [reason]
    are the two form fields after [strip]. *)
Definition verify_otp (cfg : settings) (now : Z) (code_input reason : string)
    (profile : MedicalProfile) (context : context) (s : session)
  : outcome * session :=
  let key := _otp_key (national_id profile) in
  match otp s !! key with
  | None =>
      (Returned (Render access_template
         (with_error "Request an OTP first by entering your email." context) 400),
       s)
  | Some pending =>
      if expires_at pending <? now then
        (Returned (Render access_template
           (with_pending false ""
              (with_error "The OTP has expired. Please request a new one." context)) 400),
         del_otp key s)
      else
        let attempts := attempts pending in
        let max_attempts := getattr (OTP_MAX_ATTEMPTS cfg) 5 in
        if max_attempts <=? attempts then
          (Returned (Render access_template
             (with_error "Too many attempts. Please request a new OTP." context) 429),
           s)
        else if negb (Text.nonempty reason) then
          (Returned (Render access_template
             (with_pending true (email pending)
                (with_error "Reason for access is required." context)) 400),
           s)
        else if Text.nonempty code_input && String.eqb code_input (code pending) then
          let nid := national_id profile in
          (Returned (Redirect "doctor_profile" nid),
           del_otp key
             (set_access (access_reason_key nid) (VStr reason)
                (set_access (access_email_key nid) (VStr (email pending))
                   (set_access (access_key nid) (VBool true) s))))
        else
          (Returned (Render access_template
             (with_pending true (email pending)
                (with_error "Invalid code. Please try again." context)) 401),
           set_otp key (set_attempts (attempts + 1) pending) s)
  end.

Definition doctor_access (cfg : settings) (profiles : list MedicalProfile)
    (now rand : Z) (sent : send_result) (rq : request) (nid : string)
    (s : session) : outcome * session * list mail :=
  match get_object_or_404 profiles nid with
  | None => (Raised "Http404", s, [])
  | Some profile =>
      let context := initial_context profile s in
      if String.eqb (method rq) "POST" then
        let action := POST rq !! "action" in
        if bool_decide (action = Some "send_otp") then
          let email := Text.strip (post_or_empty rq "email") in
          send_otp cfg now rand sent email profile context s
        else if bool_decide (action = Some "verify_otp") then
          let code_input := Text.strip (post_or_empty rq "access_code") in
          let reason := Text.strip (post_or_empty rq "reason") in
          let '(r, s') := verify_otp cfg now code_input reason profile context s in
          (r, s', [])
        else
          (Returned (Render access_template (with_error "Invalid action." context) 400),
           s, [])
      else (Returned (Render access_template context 200), s, [])
  end.

(** ** The access log and the owner notification *)

(** [request.session.get(key, '')] into a text column. *)
Definition session_text (s : session) (key : string) : string :=
  match access s !! key with
  | Some v => text_of v
  | None => ""
  end.

(** The primary key the database gives the next row. *)
Definition next_id (db : list AccessLog) : Z :=
  1 + fold_right (fun e m => Z.max (log_id e) m) 0 db.

(** [AccessLog.objects.create(...)]: the new row, with [created_at] filled
    by [auto_now_add] and [notified] by its default. *)
Definition create (db : list AccessLog) (now : Z) (profile : MedicalProfile)
    (event_type viewer_email reason : string) (ip_address : option string)
    (user_agent : string) : AccessLog :=
  {| log_id := next_id db; profile_id := pk profile; event_type := event_type;
     viewer_email := viewer_email; reason := reason;
     ip_address := ip_address; user_agent := user_agent;
     created_at := now; notified := false |}.

(** [log_obj.save(update_fields=['notified'])] *)
Definition save_notified (log_obj : AccessLog) (db : list AccessLog)
  : list AccessLog :=
  map (fun e => if log_id e =? log_id log_obj
                then set_notified (notified log_obj) e else e) db.

(** The [filter(...)] of line 258, as a predicate on rows. *)
Definition recent_notified (profile : MedicalProfile) (event_type_ : string)
    (since : Z) (e : AccessLog) : bool :=
  (profile_id e =? pk profile) && String.eqb (event_type e) event_type_
  && notified e && (since <=? created_at e).

(** The message of lines 264-277. *)
Definition access_mail (cfg : settings) (profile : MedicalProfile)
    (log_obj : AccessLog) : mail :=
  {| subject := "Access to your medical profile (" +:+ full_name profile +:+ ")";
     message :=
       AccessBody (full_name profile) (get_event_type_display log_obj)
         (created_at log_obj)
         (Text.str_or (viewer_email log_obj) "unknown")
         (Text.str_or (reason log_obj) "N/A")
         (Text.str_or (default "" (ip_address log_obj)) "N/A")
         (Text.take 200 (user_agent log_obj));
     from_email := DEFAULT_FROM_EMAIL cfg;
     recipient_list := [owner_email profile] |}.

(** What [_notify_owner_if_needed] leaves behind: the in-memory [log_obj],
    the table and the calls of [send_mail] it made.  [sent] is what
    [send_mail] did and [saved] whether the [UPDATE] went through; an
    exception of either is caught by the [except] of line 282. *)
Definition _notify_owner_if_needed (cfg : settings) (now : Z)
    (sent : send_result) (saved : db_result)
    (profile : MedicalProfile) (event_type_ : string) (log_obj : AccessLog)
    (db : list AccessLog) : AccessLog * list AccessLog * list mail :=
  if negb (Text.nonempty (owner_email profile)) then (log_obj, db, [])
  else
    let mins := getattr (ACCESS_NOTIFY_COOLDOWN_MINUTES cfg) 30 in
    let since := now - minutes mins in
    let recent := existsb (recent_notified profile event_type_ since) db in
    if recent then (log_obj, db, [])
    else
      let m := access_mail cfg profile log_obj in
      match sent with
      | SendRaised => (log_obj, db, [m])
      | _ =>
          let log_obj' := set_notified true log_obj in
          match saved with
          | DbOk => (log_obj', save_notified log_obj' db, [m])
          | DbError => (log_obj', db, [m])
          end
      end.

(** The four session-protected views share one shape: check the session
    flag, fetch the profile, create the log row inside [try], and call
    [_notify_owner_if_needed] when the row exists.  [logged] is the
    [event_type] given to [create], [gated] the one given to the notifier;
    [t_log] and [t_notify] are the two readings of the clock; [created],
    [sent] and [saved] are what the database and [send_mail] did. *)
Definition logged_access (cfg : settings) (profiles : list MedicalProfile)
    (logged gated : string) (render : MedicalProfile -> response)
    (t_log t_notify : Z)
    (created : db_result) (sent : send_result) (saved : db_result)
    (rq : request) (nid : string) (s : session) (db : list AccessLog)
  : outcome * list AccessLog * list mail :=
  if negb (default false (truthy <$> access s !! access_key nid)) then
    (Returned (Redirect "doctor_access" nid), db, [])
  else
    match get_object_or_404 profiles nid with
    | None => (Raised "Http404", db, [])
    | Some profile =>
        match created with
        | DbError => (Returned (render profile), db, [])
        | DbOk =>
            let log_obj :=
              create db t_log profile logged
                (session_text s (access_email_key nid))
                (session_text s (access_reason_key nid))
                (_client_ip rq) (_user_agent rq) in
            let '(_, db', mails) :=
              _notify_owner_if_needed cfg t_notify sent saved profile gated
                log_obj (db ++ [log_obj]) in
            (Returned (render profile), db', mails)
        end
    end.

(** [public_profile] logs the view and never notifies. *)
Definition public_profile (profiles : list MedicalProfile) (t_log : Z)
    (created : db_result) (rq : request) (nid : string) (db : list AccessLog)
  : outcome * list AccessLog :=
  match get_object_or_404 profiles nid with
  | None => (Raised "Http404", db)
  | Some profile =>
      match created with
      | DbError => (Returned (Page "medical/public_profile.html"), db)
      | DbOk =>
          (Returned (Page "medical/public_profile.html"),
           (db ++ [create db t_log profile "public_view" "" ""
                     (_client_ip rq) (_user_agent rq)])%list)
      end
  end.

Definition doctor_profile_view (cfg : settings) (profiles : list MedicalProfile) :=
  logged_access cfg profiles "doctor_view" "doctor_view"
    (fun _ => Page "medical/doctor_profile.html").

Definition doctor_profile_download (cfg : settings) (profiles : list MedicalProfile) :=
  logged_access cfg profiles "download_html" "download_html"
    (fun p => Attachment "text/html; charset=utf-8"
                ("medical_profile_" +:+ national_id p +:+ ".html")).

(** [weasyprint] tells whether the import of line 370 succeeds. *)
Definition doctor_profile_download_pdf (weasyprint : bool) (cfg : settings)
    (profiles : list MedicalProfile) :=
  logged_access cfg profiles "download_pdf" "download_pdf"
    (fun p => if weasyprint
              then Attachment "application/pdf"
                     ("medical_profile_" +:+ national_id p +:+ ".pdf")
              else Plain 501).

Definition doctor_health_monitoring_view (cfg : settings)
    (profiles : list MedicalProfile) :=
  logged_access cfg profiles "doctor_health_view" "doctor_view"
    (fun _ => Page "medical/health_monitoring_clinician.html").

(** ** The vocabulary of the specification *)

(** The kinds of failure of [verify], and the status and message by which
    [doctor_access] reports each. *)
Inductive verify_error :=
| NoChallengeError
| ExpiredError
| TooManyAttemptsError
| ReasonRequiredError
| InvalidCodeError.

Inductive verify_result :=
| Granted
| Failed (e : verify_error).

Definition reported : list (Z * string * verify_error) :=
  [ (400, "Request an OTP first by entering your email.", NoChallengeError);
    (400, "The OTP has expired. Please request a new one.", ExpiredError);
    (429, "Too many attempts. Please request a new OTP.", TooManyAttemptsError);
    (400, "Reason for access is required.", ReasonRequiredError);
    (401, "Invalid code. Please try again.", InvalidCodeError) ].

Fixpoint lookup_report (status : Z) (msg : string)
    (l : list (Z * string * verify_error)) : option verify_error :=
  match l with
  | [] => None
  | (st, m, e) :: r =>
      if (st =? status) && String.eqb m msg then Some e
      else lookup_report status msg r
  end.

(** How a reply of the [verify_otp] action reads in that vocabulary. *)
Definition classify (o : outcome) : option verify_result :=
  match o with
  | Returned (Redirect view _) =>
      if String.eqb view "doctor_profile" then Some Granted else None
  | Returned (Render _ ctx status) =>
      match error ctx with
      | Some msg => Failed <$> lookup_report status msg reported
      | None => None
      end
  | _ => None
  end.

(** The grant a successful verification leaves in the session. *)
Definition grant (nid verifier_email reason_ : string) (s : session) : session :=
  set_access (access_reason_key nid) (VStr reason_)
    (set_access (access_email_key nid) (VStr verifier_email)
       (set_access (access_key nid) (VBool true) s)).

(** [verify] as section 4.2 of the specification words it: the five checks
    in their order, each with its effect on the session. *)
Definition verify_spec (max_attempts now : Z) (submitted_code reason_ : string)
    (nid : string) (s : session) : verify_result * session :=
  match otp s !! _otp_key nid with
  | None => (Failed NoChallengeError, s)
  | Some ch =>
      if decide (now > expires_at ch) then
        (Failed ExpiredError, del_otp (_otp_key nid) s)
      else if decide (attempts ch >= max_attempts) then
        (Failed TooManyAttemptsError, s)
      else if decide (reason_ = "") then
        (Failed ReasonRequiredError, s)
      else if decide (submitted_code = code ch) then
        (Granted, del_otp (_otp_key nid) (grant nid (email ch) reason_ s))
      else
        (Failed InvalidCodeError,
         set_otp (_otp_key nid) (set_attempts (attempts ch + 1) ch) s)
  end.

(** A code as [send_otp] makes them: six decimal digits. *)
Definition six_digits (c : string) : Prop :=
  String.length c = 6%nat ∧ Text.all_digits c = true.

(** An address [send_otp] accepts. *)
Definition valid_email (e : string) : Prop :=
  e ≠ "" ∧ Text.contains "@" e = true.

(** The sessions a browser can hold: the empty one, and whatever a request
    to [doctor_access] leaves behind, the other views writing nothing to
    the session. *)
Inductive reachable (cfg : settings) (profiles : list MedicalProfile)
  : session -> Prop :=
| reach_new : reachable cfg profiles new_session
| reach_request s now rand sent rq nid :
    reachable cfg profiles s ->
    0 <= rand < 1000000 ->
    reachable cfg profiles
      (doctor_access cfg profiles now rand sent rq nid s).1.2.

(** A property of every pending challenge of a session. *)
Definition otp_all (P : pending -> Prop) (s : session) : Prop :=
  ∀ k p, otp s !! k = Some p -> P p.

(** The three tunables as the views read them. *)
Definition max_attempts_of (cfg : settings) : Z := getattr (OTP_MAX_ATTEMPTS cfg) 5.
Definition ttl_of (cfg : settings) : Z := minutes (getattr (OTP_TTL_MINUTES cfg) 5).
Definition cooldown_of (cfg : settings) : Z :=
  minutes (getattr (ACCESS_NOTIFY_COOLDOWN_MINUTES cfg) 30).

(** ** [MedicalProfileForm] ([medical/forms.py]) *)

(** The character class [[A-Za-z0-9\-]]. *)
Definition id_char (c : ascii) : bool :=
  let n := N_of_ascii c in
  ((65 <=? n) && (n <=? 90) || (97 <=? n) && (n <=? 122)
   || (48 <=? n) && (n <=? 57) || (n =? 45))%N.

Fixpoint all_chars (f : ascii -> bool) (s : string) : bool :=
  match s with
  | EmptyString => true
  | String c r => f c && all_chars f r
  end.

(** [s] without the line feed it may end with: [$] also matches just
    before a final line feed. *)
Fixpoint before_final_newline (s : string) : string :=
  match s with
  | EmptyString => EmptyString
  | String c r =>
      match r with
      | EmptyString => if Ascii.eqb c "010" then EmptyString else s
      | _ => String c (before_final_newline r)
      end
  end.

(** Whether the validator of the [national_id] field,
    [RegexValidator(regex=r'^[A-Za-z0-9\-]+$')], accepts [s]. *)
Definition national_id_regex (s : string) : bool :=
  let body := before_final_newline s in
  Text.nonempty body && all_chars id_char body.

(** ** [MedicalProfile.get_age] ([medical/models.py]) *)

(** A [datetime.date]. *)
Record date := { year : Z; month : Z; day : Z }.

(** [(a1, a2) < (b1, b2)] on tuples of integers. *)
Definition tuple_lt (a b : Z * Z) : bool :=
  (a.1 <? b.1) || ((a.1 =? b.1) && (a.2 <? b.2)).

(** [get_age] for a profile whose [date_of_birth] is [dob], on the day
    [today]; a comparison counts as 1 when it holds. *)
Definition get_age (dob : option date) (today : date) : option Z :=
  match dob with
  | None => None
  | Some d =>
      Some (year today - year d
            - (if tuple_lt (month today, day today) (month d, day d)
               then 1 else 0))
  end.

(** The order of the calendar on dates. *)
Definition date_le (a b : date) : Prop :=
  year a < year b
  ∨ (year a = year b
     ∧ (month a < month b ∨ (month a = month b ∧ day a <= day b))).

(** ** Runs of requests *)

(** A string [strip] empties. *)
Definition whitespace_only (s : string) : bool := all_chars Text.is_space s.

(** Successive [verify_otp] submissions [(now, code_input, reason)] for one
    profile in one session, with the replies they get. *)
Fixpoint verify_run (cfg : settings) (profile : MedicalProfile)
    (guesses : list (Z * string * string)) (s : session)
  : list outcome * session :=
  match guesses with
  | [] => ([], s)
  | (now, code_input, reason_) :: rest =>
      let '(o, s') :=
        verify_otp cfg now code_input reason_ profile
          (initial_context profile s) s in
      let '(os, s'') := verify_run cfg profile rest s' in
      (o :: os, s'')
  end.

(** The replies that come from comparing the submitted code with the
    stored one: the success and the invalid-code error. *)
Definition compared (o : outcome) : bool :=
  match classify o with
  | Some Granted | Some (Failed InvalidCodeError) => true
  | _ => false
  end.

(** The comparisons the pending challenge of a profile still allows. *)
Definition guesses_left (cfg : settings) (nid : string) (s : session) : Z :=
  match otp s !! _otp_key nid with
  | Some p => Z.max 0 (max_attempts_of cfg - attempts p)
  | None => 0
  end.

(** The rows the cooldown query of [_notify_owner_if_needed] can count for
    a profile and an event type. *)
Definition of_pair (profile : MedicalProfile) (event_type_ : string)
    (e : AccessLog) : bool :=
  (profile_id e =? pk profile) && String.eqb (event_type e) event_type_.

(** What the session check of the protected views reads for [nid]. *)
Definition access_granted (s : session) (nid : string) : bool :=
  default false (truthy <$> access s !! access_key nid).

(** The user agent as the owner's message shows it. *)
Definition mail_user_agent (m : mail) : string :=
  match message m with
  | AccessBody _ _ _ _ _ _ ua => ua
  | OtpBody _ _ _ _ => ""
  end.

(** ** Sample data *)

Definition alice : MedicalProfile :=
  {| pk := 1; full_name := "Alice Wanjiru"; national_id := "A100";
     owner_email := "doc@example.com" |}.

Definition post (fields : list (string * string)) : request :=
  {| method := "POST"; POST := list_to_map fields;
     META := {[ "REMOTE_ADDR" := "10.0.0.7" ]} |}.

Definition send_request (email_field : string) : request :=
  post [("action", "send_otp"); ("email", email_field)].

Definition verify_request (code_field reason_field : string) : request :=
  post [("action", "verify_otp"); ("access_code", code_field);
        ("reason", reason_field)].

(** The session after one [send_otp] for [alice] at time [now] with the
    drawn value [rand]. *)
Definition issued (now rand : Z) : session :=
  (doctor_access settings_py [alice] now rand Delivered
     (send_request "nurse@example.com") "A100" new_session).1.2.

(** The session [n] wrong guesses later. *)
Fixpoint guessed_wrong (n : nat) (now rand : Z) : session :=
  match n with
  | O => issued now rand
  | S k =>
      (doctor_access settings_py [alice] now rand Delivered
         (verify_request "no" "routine check") "A100"
         (guessed_wrong k now rand)).1.2
  end.

(** The session once the nurse has typed the code and a reason. *)
Definition granted (now rand : Z) : session :=
  (doctor_access settings_py [alice] now rand Delivered
     (verify_request (Text.format_06d rand) "routine check") "A100"
     (issued now rand)).1.2.

Definition get : request :=
  {| method := "GET"; POST := ∅;
     META := {[ "REMOTE_ADDR" := "10.0.0.7" ]} |}.

(** A [doctor_view] row of [alice] created at [t], and the same row once
    the gate has marked it. *)
Definition viewed (t : Z) : AccessLog :=
  create [] t alice "doctor_view" "nurse@example.com" "routine check"
    (Some "10.0.0.7") "Mozilla/5.0".

Definition viewed_notified (t : Z) : AccessLog := set_notified true (viewed t).

(** The access log after a first [doctor_profile_view] at time 0 during
    which the mail backend failed silently. *)
Definition log_after_failed_mail : list AccessLog :=
  (doctor_profile_view settings_py [alice] 0 0 DbOk FailedSilently DbOk
     get "A100" (granted 0 42) []).1.2.

(** The access log after a first, notified
    [doctor_health_monitoring_view] at time 0. *)
Definition log_after_health_view : list AccessLog :=
  (doctor_health_monitoring_view settings_py [alice] 0 0 DbOk Delivered DbOk
     get "A100" (granted 0 42) []).1.2.

(** * Properties *)

(** ** Decimal formatting *)

Section Formatting.
Import Text.

Lemma digit_char_code d :
  0 <= d < 10 -> Z.of_N (N_of_ascii (digit_char d)) - 48 = d.
Proof.
  intros Hd.
  assert (Hc : d = 0 ∨ d = 1 ∨ d = 2 ∨ d = 3 ∨ d = 4 ∨ d = 5 ∨ d = 6
               ∨ d = 7 ∨ d = 8 ∨ d = 9) by lia.
  repeat (destruct Hc as [-> | Hc]; [reflexivity |]).
  subst d. reflexivity.
Qed.

Lemma digit_char_is_digit d : 0 <= d < 10 -> is_digit (digit_char d) = true.
Proof.
  intros Hd.
  assert (Hc : d = 0 ∨ d = 1 ∨ d = 2 ∨ d = 3 ∨ d = 4 ∨ d = 5 ∨ d = 6
               ∨ d = 7 ∨ d = 8 ∨ d = 9) by lia.
  repeat (destruct Hc as [-> | Hc]; [reflexivity |]).
  subst d. reflexivity.
Qed.

Lemma dec_digits_all_digits fuel : ∀ n acc,
  0 <= n -> all_digits acc = true -> all_digits (dec_digits fuel n acc) = true.
Proof.
  induction fuel as [| f IH]; intros n acc Hn Hacc; simpl; [done |].
  assert (Hd : is_digit (digit_char (n mod 10)) = true).
  { apply digit_char_is_digit. apply Z.mod_pos_bound. lia. }
  destruct (n / 10 =? 0).
  - simpl. by rewrite Hd.
  - apply IH.
    + apply Z.div_pos; lia.
    + simpl. by rewrite Hd.
Qed.

Lemma dec_digits_length_le fuel : ∀ (k : nat) n acc,
  (1 <= k)%nat -> 0 <= n < 10 ^ Z.of_nat k ->
  (String.length (dec_digits fuel n acc) <= k + String.length acc)%nat.
Proof.
  induction fuel as [| f IH]; intros k n acc Hk Hn; simpl; [lia |].
  destruct (n / 10 =? 0) eqn:Hq.
  - simpl. lia.
  - apply Z.eqb_neq in Hq.
    destruct k as [| [| k']]; [lia | |].
    + exfalso. apply Hq. apply Z.div_small. simpl in Hn. lia.
    + specialize (IH (S k') (n / 10) (String (digit_char (n mod 10)) acc)).
      simpl String.length in IH.
      assert (0 <= n / 10 < 10 ^ Z.of_nat (S k')).
      { split; [apply Z.div_pos; lia |].
        apply Z.div_lt_upper_bound; [lia |].
        replace (Z.of_nat (S (S k'))) with (Z.succ (Z.of_nat (S k'))) in Hn by lia.
        rewrite Z.pow_succ_r in Hn by lia. lia. }
      unfold digit_char in *. lia.
Qed.

Lemma dec_digits_length_ge fuel n acc :
  (String.length acc <= String.length (dec_digits fuel n acc))%nat.
Proof.
  revert n acc. induction fuel as [| f IH]; intros n acc; simpl; [lia |].
  destruct (n / 10 =? 0); simpl; [lia |].
  etransitivity; [| apply IH]. simpl. lia.
Qed.

Lemma dec_value_from_shift s : ∀ v,
  dec_value_from v s = v * 10 ^ Z.of_nat (String.length s) + dec_value s.
Proof.
  unfold dec_value.
  induction s as [| c r IH]; intros v; simpl String.length; simpl dec_value_from.
  - simpl. lia.
  - rewrite IH. rewrite (IH (10 * 0 + _)).
    rewrite Nat2Z.inj_succ, Z.pow_succ_r by lia. ring.
Qed.

Lemma dec_digits_value fuel : ∀ n acc,
  0 <= n < 2 ^ Z.of_nat fuel ->
  dec_value (dec_digits fuel n acc)
  = n * 10 ^ Z.of_nat (String.length acc) + dec_value acc.
Proof.
  induction fuel as [| f IH]; intros n acc Hn.
  - simpl in *. assert (n = 0) as -> by lia. lia.
  - cbn [dec_digits].
    assert (Hd : 0 <= n mod 10 < 10) by (apply Z.mod_pos_bound; lia).
    assert (Hacc : dec_value (String (digit_char (n mod 10)) acc)
                   = n mod 10 * 10 ^ Z.of_nat (String.length acc) + dec_value acc).
    { unfold dec_value at 1. cbn [dec_value_from].
      rewrite dec_value_from_shift, digit_char_code by done. f_equal. }
    destruct (n / 10 =? 0) eqn:Hq.
    + apply Z.eqb_eq in Hq. rewrite Hacc.
      rewrite (Z.div_mod n 10) at 2 by lia. rewrite Hq. f_equal.
    + rewrite IH, Hacc.
      * cbn [String.length]. rewrite Nat2Z.inj_succ, Z.pow_succ_r by lia.
        rewrite (Z.div_mod n 10) at 3 by lia. ring.
      * split; [apply Z.div_pos; lia |].
        apply Z.div_lt_upper_bound; [lia |].
        rewrite Nat2Z.inj_succ, Z.pow_succ_r in Hn by lia. lia.
Qed.

Lemma zeros_length k : String.length (zeros k) = k.
Proof. induction k; simpl; congruence. Qed.

Lemma append_length (a b : string) :
  String.length (a +:+ b) = (String.length a + String.length b)%nat.
Proof. induction a as [| c a IH]; simpl; [done | by rewrite IH]. Qed.

Lemma zeros_append_digits k s :
  all_digits s = true -> all_digits (zeros k +:+ s) = true.
Proof. intros H. induction k; simpl; done. Qed.

Lemma zeros_append_value k s : dec_value (zeros k +:+ s) = dec_value s.
Proof. unfold dec_value. induction k; simpl; done. Qed.

Lemma dec_fuel n :
  0 <= n -> 0 <= n < 2 ^ Z.of_nat (S (Z.to_nat (Z.log2 n))).
Proof.
  intros Hn. split; [done |]. rewrite Nat2Z.inj_succ, Z2Nat.id by apply Z.log2_nonneg.
  destruct (decide (n = 0)) as [-> | Hne]; [done |].
  apply Z.log2_spec. lia.
Qed.

(** [f"{n:06d}"] of a number below a million: six digits that read back
    as the number. *)
Lemma format_06d_six_digits n :
  0 <= n < 1000000 ->
  String.length (format_06d n) = 6%nat
  ∧ all_digits (format_06d n) = true
  ∧ dec_value (format_06d n) = n.
Proof.
  intros Hn. unfold format_06d.
  destruct (n <? 0) eqn:Hneg; [apply Z.ltb_lt in Hneg; lia |].
  unfold zero_pad, dec.
  set (fuel := S (Z.to_nat (Z.log2 n))).
  pose proof (dec_digits_length_le fuel 6 n EmptyString) as Hle.
  cbn [String.length] in Hle.
  assert (Hlen : (String.length (dec_digits fuel n EmptyString) <= 6)%nat).
  { rewrite Nat.add_0_r in Hle. apply Hle; [lia |]. simpl. lia. }
  repeat split.
  - rewrite append_length, zeros_length. lia.
  - apply zeros_append_digits. apply dec_digits_all_digits; [lia | done].
  - rewrite zeros_append_value, dec_digits_value by (apply dec_fuel; lia).
    simpl. unfold dec_value. simpl. lia.
Qed.

Lemma six_digits_nonempty c : six_digits c -> nonempty c = true.
Proof. intros [Hl _]. destruct c; [discriminate | done]. Qed.

End Formatting.

(** ** Session keys *)

Lemma access_key_ne_email nid : access_key nid ≠ access_email_key nid.
Proof.
  unfold access_key, access_email_key. intros H.
  apply (f_equal String.length) in H.
  rewrite !append_length in H. simpl in H. lia.
Qed.

Lemma access_key_ne_reason nid : access_key nid ≠ access_reason_key nid.
Proof.
  unfold access_key, access_reason_key. intros H.
  apply (f_equal String.length) in H.
  rewrite !append_length in H. simpl in H. lia.
Qed.

Lemma access_email_ne_reason nid : access_email_key nid ≠ access_reason_key nid.
Proof.
  unfold access_email_key, access_reason_key. intros H.
  apply (inj (String.app _)) in H. apply (inj (String.app _)) in H.
  discriminate.
Qed.

(** The three entries of a grant can be read back. *)
Lemma grant_lookup nid e r s :
  access (grant nid e r s) !! access_key nid = Some (VBool true)
  ∧ access (grant nid e r s) !! access_email_key nid = Some (VStr e)
  ∧ access (grant nid e r s) !! access_reason_key nid = Some (VStr r).
Proof.
  pose proof (access_key_ne_email nid). pose proof (access_key_ne_reason nid).
  pose proof (access_email_ne_reason nid).
  unfold grant, set_access; simpl. repeat split.
  - rewrite !lookup_insert_ne by done. apply lookup_insert_eq.
  - rewrite lookup_insert_ne by done. apply lookup_insert_eq.
  - apply lookup_insert_eq.
Qed.

(** ** [verify_otp] against the wording of the specification *)

Lemma verify_otp_refines cfg now code_input reason_ profile ctx s :
  (∀ p, otp s !! _otp_key (national_id profile) = Some p ->
        Text.nonempty (code p) = true) ->
  let got := verify_otp cfg now code_input reason_ profile ctx s in
  let want :=
    verify_spec (max_attempts_of cfg) now code_input reason_
      (national_id profile) s in
  classify got.1 = Some want.1 ∧ got.2 = want.2.
Proof.
  intros Hcode. unfold verify_otp, verify_spec, max_attempts_of.
  destruct (otp s !! _otp_key (national_id profile)) as [p |] eqn:Hp; [| done].
  specialize (Hcode p eq_refl).
  destruct (Z.ltb_spec (expires_at p) now); case_decide; try lia; [done |].
  destruct (Z.leb_spec (getattr (OTP_MAX_ATTEMPTS cfg) 5) (attempts p));
    case_decide; try lia; [done |].
  destruct reason_ as [| c r]; case_decide; try done. clear H3.
  cbn [Text.nonempty negb].
  case_decide as Heq.
  - subst code_input. rewrite Hcode, String.eqb_refl. done.
  - apply String.eqb_neq in Heq. rewrite Heq, andb_false_r. done.
Qed.

(** ** What a request to [doctor_access] does to the pending challenges *)

Lemma send_otp_otp_all (P : pending -> Prop) cfg now rand sent e profile ctx s :
  (∀ e' t, P {| email := e'; code := Text.format_06d rand;
                expires_at := t; attempts := 0 |}) ->
  otp_all P s ->
  otp_all P (send_otp cfg now rand sent e profile ctx s).1.2.
Proof.
  intros Hnew Hs. unfold send_otp.
  destruct (negb (Text.nonempty e) || negb (Text.contains "@" e)); [done |].
  assert (Hins : otp_all P
    (set_otp (_otp_key (national_id profile))
       {| email := e; code := Text.format_06d rand;
          expires_at := now + minutes (getattr (OTP_TTL_MINUTES cfg) 5);
          attempts := 0 |} s)).
  { intros k p. unfold set_otp; simpl. rewrite lookup_insert.
    case_decide; [intros [= <-]; apply Hnew | apply Hs]. }
  by destruct sent.
Qed.

Lemma verify_otp_otp_all (P : pending -> Prop) cfg now c r profile ctx s :
  (∀ p, P p -> attempts p < max_attempts_of cfg ->
        P (set_attempts (attempts p + 1) p)) ->
  otp_all P s ->
  otp_all P (verify_otp cfg now c r profile ctx s).2.
Proof.
  intros Hbump Hs. unfold verify_otp, max_attempts_of in *.
  destruct (otp s !! _otp_key (national_id profile)) as [p |] eqn:Hp; [| done].
  destruct (expires_at p <? now).
  { intros k q. unfold del_otp; simpl. rewrite lookup_delete.
    case_decide; [done | apply Hs]. }
  destruct (Z.leb_spec (getattr (OTP_MAX_ATTEMPTS cfg) 5) (attempts p)); [done |].
  destruct (negb (Text.nonempty r)); [done |].
  destruct (Text.nonempty c && String.eqb c (code p)).
  - intros k q. unfold del_otp, set_access; simpl. rewrite lookup_delete.
    case_decide; [done | apply Hs].
  - intros k q. unfold set_otp; simpl. rewrite lookup_insert.
    case_decide; [| apply Hs]. intros [= <-]. apply Hbump; [by eapply Hs | lia].
Qed.

Lemma doctor_access_otp_all (P : pending -> Prop) cfg profiles now rand sent rq nid s :
  (∀ e' t, P {| email := e'; code := Text.format_06d rand;
                expires_at := t; attempts := 0 |}) ->
  (∀ p, P p -> attempts p < max_attempts_of cfg ->
        P (set_attempts (attempts p + 1) p)) ->
  otp_all P s ->
  otp_all P (doctor_access cfg profiles now rand sent rq nid s).1.2.
Proof.
  intros Hnew Hbump Hs. unfold doctor_access.
  destruct (get_object_or_404 profiles nid) as [profile |]; [| done].
  destruct (String.eqb (method rq) "POST"); [| done].
  cbv zeta. case_bool_decide.
  { by apply send_otp_otp_all. }
  case_bool_decide; [| done].
  pose proof (verify_otp_otp_all P cfg now
    (Text.strip (post_or_empty rq "access_code"))
    (Text.strip (post_or_empty rq "reason")) profile
    (initial_context profile s) s Hbump Hs) as Hv.
  by destruct (verify_otp _ _ _ _ _ _ _).
Qed.

(** ** Reachable sessions *)

Lemma reachable_otp_all (P : pending -> Prop) cfg profiles s :
  (∀ rand e t, 0 <= rand < 1000000 ->
     P {| email := e; code := Text.format_06d rand;
          expires_at := t; attempts := 0 |}) ->
  (∀ p, P p -> attempts p < max_attempts_of cfg ->
        P (set_attempts (attempts p + 1) p)) ->
  reachable cfg profiles s -> otp_all P s.
Proof.
  intros Hnew Hbump Hr. induction Hr as [| s now rand sent rq nid Hr IH Hrand].
  - intros k p. unfold new_session; simpl. by rewrite lookup_empty.
  - apply doctor_access_otp_all; [| done | done].
    intros e t. by apply Hnew.
Qed.

Lemma reachable_codes cfg profiles s :
  reachable cfg profiles s -> otp_all (λ p, six_digits (code p)) s.
Proof.
  apply reachable_otp_all.
  - intros rand e t Hrand; simpl.
    destruct (format_06d_six_digits rand Hrand) as (? & ? & _). by split.
  - by intros p Hp _.
Qed.

Lemma reachable_attempts cfg profiles s :
  0 <= max_attempts_of cfg ->
  reachable cfg profiles s ->
  otp_all (λ p, 0 <= attempts p <= max_attempts_of cfg) s.
Proof.
  intros Hmax. apply reachable_otp_all.
  - intros rand e t _; simpl. lia.
  - intros p Hp Hlt; simpl. lia.
Qed.

(** ** The claims about [verify] *)

(** C3: on every session a browser can hold, [verify_otp] makes the checks
    of [verify_spec] in the same order and with the same effects: no
    pending challenge, then expiry (the challenge is cleared), then the
    attempt limit, then the missing reason, and only then the comparison
    of the codes, where a mismatch counts one attempt and a match clears
    the challenge and writes the grant. *)
Theorem verify_checks_in_order cfg profiles now submitted_code reason_ profile ctx s :
  reachable cfg profiles s ->
  classify (verify_otp cfg now submitted_code reason_ profile ctx s).1
  = Some (verify_spec (max_attempts_of cfg) now submitted_code reason_
            (national_id profile) s).1
  ∧ (verify_otp cfg now submitted_code reason_ profile ctx s).2
    = (verify_spec (max_attempts_of cfg) now submitted_code reason_
         (national_id profile) s).2.
Proof.
  intros Hr. apply verify_otp_refines.
  intros p Hp. apply six_digits_nonempty.
  exact (reachable_codes _ _ _ Hr _ _ Hp).
Qed.

Lemma verify_checks_in_order_witness :
  reachable settings_py [alice] (issued 0 42)
  ∧ classify (verify_otp settings_py (seconds 60) "000042" "routine check"
                alice (initial_context alice (issued 0 42)) (issued 0 42)).1
    = Some (verify_spec 5 (seconds 60) "000042" "routine check" "A100"
              (issued 0 42)).1
  ∧ (verify_otp settings_py (seconds 60) "000042" "routine check"
       alice (initial_context alice (issued 0 42)) (issued 0 42)).2
    = (verify_spec 5 (seconds 60) "000042" "routine check" "A100"
         (issued 0 42)).2.
Proof.
  assert (Hr : reachable settings_py [alice] (issued 0 42)).
  { unfold issued. apply reach_request; [apply reach_new | lia]. }
  split; [exact Hr |].
  exact (verify_checks_in_order settings_py [alice] (seconds 60) "000042"
           "routine check" alice (initial_context alice (issued 0 42))
           (issued 0 42) Hr).
Defined.

(** C10: in every reachable session the attempts counter of a pending
    challenge lies between 0 and [max_attempts] (5 unless configured; the
    configured limit is taken to be non-negative). *)
Theorem attempts_within_bounds cfg profiles s nid p :
  0 <= max_attempts_of cfg ->
  reachable cfg profiles s ->
  otp s !! _otp_key nid = Some p ->
  0 <= attempts p <= max_attempts_of cfg.
Proof.
  intros Hmax Hr Hp. exact (reachable_attempts _ _ _ Hmax Hr _ _ Hp).
Qed.

Lemma attempts_within_bounds_witness :
  0 <= attempts {| email := "nurse@example.com"; code := "000042";
                   expires_at := minutes 5; attempts := 2 |}
    <= max_attempts_of settings_py.
Proof.
  apply (attempts_within_bounds settings_py [alice] (guessed_wrong 2 0 42) "A100").
  - vm_compute. discriminate.
  - cbn [guessed_wrong]. unfold issued.
    repeat (apply reach_request; [| lia]). apply reach_new.
  - vm_compute. reflexivity.
Defined.

Lemma valid_email_accepted e :
  valid_email e ->
  negb (Text.nonempty e) || negb (Text.contains "@" e) = false.
Proof.
  intros [Hne Hat]. rewrite Hat. destruct e; [done | reflexivity].
Qed.

(** C8: the code [send_otp] stores for a drawn value in [0, 999999] is
    that value written with exactly six decimal digits, leading zeros
    kept: the digits read back as the value, and 42 is stored as
    "000042". *)
Theorem stored_code_six_digits cfg now rand sent e profile ctx s :
  0 <= rand < 1000000 ->
  valid_email e ->
  ∃ p,
    otp (send_otp cfg now rand sent e profile ctx s).1.2
      !! _otp_key (national_id profile) = Some p
    ∧ code p = Text.format_06d rand
    ∧ String.length (code p) = 6%nat
    ∧ Text.all_digits (code p) = true
    ∧ Text.dec_value (code p) = rand
    ∧ (rand = 42 -> code p = "000042").
Proof.
  intros Hrand Hvalid.
  destruct (format_06d_six_digits rand Hrand) as (Hlen & Hdig & Hval).
  exists {| email := e; code := Text.format_06d rand;
            expires_at := now + minutes (getattr (OTP_TTL_MINUTES cfg) 5);
            attempts := 0 |}.
  unfold send_otp. rewrite (valid_email_accepted e Hvalid).
  split; [| simpl; repeat split; try done; by intros ->].
  destruct sent; unfold set_otp; simpl; apply lookup_insert_eq.
Qed.

Lemma stored_code_six_digits_witness :
  ∃ p,
    otp (send_otp settings_py 0 42 Delivered "nurse@example.com" alice
           (initial_context alice new_session) new_session).1.2
      !! _otp_key (national_id alice) = Some p
    ∧ code p = Text.format_06d 42
    ∧ String.length (code p) = 6%nat
    ∧ Text.all_digits (code p) = true
    ∧ Text.dec_value (code p) = 42
    ∧ (42 = 42 -> code p = "000042").
Proof.
  apply (stored_code_six_digits settings_py 0 42 Delivered "nurse@example.com"
           alice (initial_context alice new_session) new_session).
  - lia.
  - split; [discriminate | reflexivity].
Defined.

(** C4: after [send_otp] for a valid address, a [verify_otp] within the
    TTL with the issued code and a non-empty reason succeeds (the limit
    on attempts being positive): the challenge is removed and the grant
    holds the flag, the address the code went to and the reason.  Any
    later [verify_otp] with the same code finds no challenge. *)
Theorem issue_then_verify_once cfg now rand sent e reason_ profile ctx0 s t1 ctx1 :
  valid_email e ->
  0 <= rand < 1000000 ->
  sent ≠ SendRaised ->
  t1 <= now + ttl_of cfg ->
  0 < max_attempts_of cfg ->
  reason_ ≠ "" ->
  let nid := national_id profile in
  let issue := send_otp cfg now rand sent e profile ctx0 s in
  let s1 := issue.1.2 in
  let code_ := Text.format_06d rand in
  let first := verify_otp cfg t1 code_ reason_ profile ctx1 s1 in
  let s2 := first.2 in
  (∃ c, issue.1.1 = Returned (Render access_template c 200))
  ∧ (∃ m, issue.2 = [m] ∧ recipient_list m = [e]
          ∧ message m = OtpBody (full_name profile) nid code_
                          (getattr (OTP_TTL_MINUTES cfg) 5))
  ∧ first.1 = Returned (Redirect "doctor_profile" nid)
  ∧ otp s2 !! _otp_key nid = None
  ∧ access s2 !! access_key nid = Some (VBool true)
  ∧ access s2 !! access_email_key nid = Some (VStr e)
  ∧ access s2 !! access_reason_key nid = Some (VStr reason_)
  ∧ ∀ t2 ctx2,
      classify (verify_otp cfg t2 code_ reason_ profile ctx2 s2).1
      = Some (Failed NoChallengeError)
      ∧ (verify_otp cfg t2 code_ reason_ profile ctx2 s2).2 = s2.
Proof.
  intros Hvalid Hrand Hsent Ht1 Hmax Hreason nid issue s1 code_ first s2.
  destruct (format_06d_six_digits rand Hrand) as (Hlen & Hdig & _).
  assert (Hne : Text.nonempty code_ = true) by (by apply six_digits_nonempty).
  set (p := {| email := e; code := code_;
               expires_at := now + minutes (getattr (OTP_TTL_MINUTES cfg) 5);
               attempts := 0 |}).
  assert (Hissue : issue.1.2 = set_otp (_otp_key nid) p s).
  { unfold issue, send_otp. rewrite (valid_email_accepted e Hvalid).
    by destruct sent. }
  assert (Hfirst : first = (Returned (Redirect "doctor_profile" nid),
                            del_otp (_otp_key nid) (grant nid e reason_ s1))).
  { unfold first, verify_otp. fold nid. unfold s1 at 1. rewrite Hissue.
    unfold set_otp at 1; simpl otp. rewrite lookup_insert_eq.
    simpl expires_at; simpl attempts; simpl code; simpl email.
    unfold ttl_of in Ht1.
    destruct (Z.ltb_spec (now + minutes (getattr (OTP_TTL_MINUTES cfg) 5)) t1);
      [lia |].
    unfold max_attempts_of in Hmax.
    destruct (Z.leb_spec (getattr (OTP_MAX_ATTEMPTS cfg) 5) 0); [lia |].
    destruct reason_; [done |]. cbn [Text.nonempty negb].
    rewrite Hne, String.eqb_refl. cbn [andb].
    unfold s1. rewrite Hissue. reflexivity. }
  assert (Hs2 : otp s2 !! _otp_key nid = None).
  { unfold s2. rewrite Hfirst. unfold del_otp; simpl. apply lookup_delete_eq. }
  destruct (grant_lookup nid e reason_ s1) as (Hg1 & Hg2 & Hg3).
  split.
  { unfold issue, send_otp. rewrite (valid_email_accepted e Hvalid).
    destruct sent; [eauto | eauto | done]. }
  split.
  { unfold issue, send_otp. rewrite (valid_email_accepted e Hvalid).
    destruct sent; eexists; (split; [reflexivity | done]). }
  split; [by rewrite Hfirst |].
  split; [done |].
  assert (Hlast : ∀ t2 ctx2,
    classify (verify_otp cfg t2 code_ reason_ profile ctx2 s2).1
    = Some (Failed NoChallengeError)
    ∧ (verify_otp cfg t2 code_ reason_ profile ctx2 s2).2 = s2).
  { intros t2 ctx2. unfold verify_otp. fold nid. by rewrite Hs2. }
  assert (Hacc : access s2 = access (grant nid e reason_ s1)).
  { unfold s2. by rewrite Hfirst. }
  rewrite Hacc. done.
Qed.

Lemma issue_then_verify_once_witness :
  (verify_otp settings_py (seconds 30) "000042" "routine check" alice
     (initial_context alice (issued 0 42)) (issued 0 42)).1
  = Returned (Redirect "doctor_profile" "A100").
Proof.
  pose proof (issue_then_verify_once settings_py 0 42 Delivered
    "nurse@example.com" "routine check" alice
    (initial_context alice new_session) new_session (seconds 30)
    (initial_context alice (issued 0 42))) as H.
  apply H.
  - split; [discriminate | reflexivity].
  - lia.
  - discriminate.
  - vm_compute. discriminate.
  - reflexivity.
  - discriminate.
Defined.

(** C5: while a challenge whose attempts counter has reached
    [max_attempts] has not expired, every [verify_otp], whatever the code
    and the reason, is answered with the too-many-attempts error and
    leaves the session as it was: the counter keeps its value and the
    challenge stays pending. *)
Theorem locked_at_max_attempts cfg now submitted_code reason_ profile ctx s p :
  otp s !! _otp_key (national_id profile) = Some p ->
  max_attempts_of cfg <= attempts p ->
  now <= expires_at p ->
  classify (verify_otp cfg now submitted_code reason_ profile ctx s).1
  = Some (Failed TooManyAttemptsError)
  ∧ (verify_otp cfg now submitted_code reason_ profile ctx s).2 = s
  ∧ otp (verify_otp cfg now submitted_code reason_ profile ctx s).2
      !! _otp_key (national_id profile) = Some p.
Proof.
  intros Hp Hmax Hnow. unfold verify_otp, max_attempts_of in *. rewrite Hp.
  destruct (Z.ltb_spec (expires_at p) now); [lia |].
  destruct (Z.leb_spec (getattr (OTP_MAX_ATTEMPTS cfg) 5) (attempts p)); [| lia].
  done.
Qed.

Lemma locked_at_max_attempts_witness :
  classify (verify_otp settings_py (seconds 90) "000042" "routine check" alice
              (initial_context alice (guessed_wrong 5 0 42))
              (guessed_wrong 5 0 42)).1
  = Some (Failed TooManyAttemptsError).
Proof.
  apply (locked_at_max_attempts settings_py (seconds 90) "000042"
           "routine check" alice
           (initial_context alice (guessed_wrong 5 0 42))
           (guessed_wrong 5 0 42)
           {| email := "nurse@example.com"; code := "000042";
              expires_at := minutes 5; attempts := 5 |}).
  - vm_compute. reflexivity.
  - vm_compute. discriminate.
  - vm_compute. discriminate.
Defined.

(** C6: a [verify_otp] at any time after [expires_at] removes the
    challenge and is answered with the expiry error, whatever else was
    submitted; one second before [expires_at], with the stored code, a
    non-empty reason and attempts below the limit, it succeeds. *)
Theorem expiry_boundary cfg profiles submitted_code reason_ profile ctx s p :
  reachable cfg profiles s ->
  otp s !! _otp_key (national_id profile) = Some p ->
  (∀ now, expires_at p < now ->
     classify (verify_otp cfg now submitted_code reason_ profile ctx s).1
     = Some (Failed ExpiredError)
     ∧ (verify_otp cfg now submitted_code reason_ profile ctx s).2
       = del_otp (_otp_key (national_id profile)) s
     ∧ otp (verify_otp cfg now submitted_code reason_ profile ctx s).2
         !! _otp_key (national_id profile) = None)
  ∧ (attempts p < max_attempts_of cfg -> reason_ ≠ "" ->
     verify_otp cfg (expires_at p - seconds 1) (code p) reason_ profile ctx s
     = (Returned (Redirect "doctor_profile" (national_id profile)),
        del_otp (_otp_key (national_id profile))
          (grant (national_id profile) (email p) reason_ s))).
Proof.
  intros Hr Hp. split.
  - intros now Hnow. unfold verify_otp. rewrite Hp.
    destruct (Z.ltb_spec (expires_at p) now); [| lia].
    unfold del_otp; simpl. by rewrite lookup_delete_eq.
  - intros Hatt Hreason. unfold verify_otp, max_attempts_of in *. rewrite Hp.
    unfold seconds.
    destruct (Z.ltb_spec (expires_at p) (expires_at p - 1 * 1000000)); [lia |].
    destruct (Z.leb_spec (getattr (OTP_MAX_ATTEMPTS cfg) 5) (attempts p)); [lia |].
    destruct reason_; [done |]. cbn [Text.nonempty negb].
    rewrite (six_digits_nonempty (code p)), String.eqb_refl; [done |].
    exact (reachable_codes _ _ _ Hr _ _ Hp).
Qed.

Lemma expiry_boundary_witness :
  classify (verify_otp settings_py (minutes 5 + seconds 1) "000042"
              "routine check" alice (initial_context alice (issued 0 42))
              (issued 0 42)).1
  = Some (Failed ExpiredError)
  ∧ (verify_otp settings_py (minutes 5 - seconds 1) "000042"
       "routine check" alice (initial_context alice (issued 0 42))
       (issued 0 42)).1
    = Returned (Redirect "doctor_profile" "A100").
Proof.
  assert (Hr : reachable settings_py [alice] (issued 0 42)).
  { unfold issued. apply reach_request; [apply reach_new | lia]. }
  assert (Hp : otp (issued 0 42) !! _otp_key (national_id alice)
               = Some {| email := "nurse@example.com"; code := "000042";
                         expires_at := minutes 5; attempts := 0 |}).
  { vm_compute. reflexivity. }
  destruct (expiry_boundary settings_py [alice] "000042" "routine check" alice
              (initial_context alice (issued 0 42)) (issued 0 42) _ Hr Hp)
    as [Hafter Hbefore].
  split.
  - apply Hafter. vm_compute. reflexivity.
  - assert (Hatt : attempts {| email := "nurse@example.com"; code := "000042";
                              expires_at := minutes 5; attempts := 0 |}
                   < max_attempts_of settings_py) by (vm_compute; reflexivity).
    assert (Hreason : "routine check" ≠ "") by discriminate.
    exact (f_equal fst (Hbefore Hatt Hreason)).
Defined.

(** C7, as the code has it: a [verify_otp] with an empty reason never
    counts an attempt, whatever the code: it leaves the session as it was,
    unless the challenge has expired, which removes it.  When the
    challenge has not expired and its attempts are below the limit, the
    answer is the reason-required error. *)
Theorem empty_reason_counts_no_attempt cfg now submitted_code profile ctx s p :
  otp s !! _otp_key (national_id profile) = Some p ->
  ((verify_otp cfg now submitted_code "" profile ctx s).2 = s
   ∨ (expires_at p < now
      ∧ (verify_otp cfg now submitted_code "" profile ctx s).2
        = del_otp (_otp_key (national_id profile)) s))
  ∧ (now <= expires_at p -> attempts p < max_attempts_of cfg ->
     classify (verify_otp cfg now submitted_code "" profile ctx s).1
     = Some (Failed ReasonRequiredError)
     ∧ (verify_otp cfg now submitted_code "" profile ctx s).2 = s).
Proof.
  intros Hp. unfold verify_otp, max_attempts_of. rewrite Hp.
  destruct (Z.ltb_spec (expires_at p) now).
  { split; [right; done | lia]. }
  destruct (Z.leb_spec (getattr (OTP_MAX_ATTEMPTS cfg) 5) (attempts p)).
  { split; [left; done | lia]. }
  split; [left; done | done].
Qed.

Lemma empty_reason_counts_no_attempt_witness :
  classify (verify_otp settings_py (seconds 30) "000042" "" alice
              (initial_context alice (issued 0 42)) (issued 0 42)).1
  = Some (Failed ReasonRequiredError)
  ∧ (verify_otp settings_py (seconds 30) "000042" "" alice
       (initial_context alice (issued 0 42)) (issued 0 42)).2
    = issued 0 42.
Proof.
  apply (empty_reason_counts_no_attempt settings_py (seconds 30) "000042" alice
           (initial_context alice (issued 0 42)) (issued 0 42)
           {| email := "nurse@example.com"; code := "000042";
              expires_at := minutes 5; attempts := 0 |}).
  - vm_compute. reflexivity.
  - vm_compute. discriminate.
  - vm_compute. reflexivity.
Defined.

(** C7 as worded fails on a challenge that is pending with its attempts
    at the limit: after five wrong guesses, a [verify_otp] with an empty
    reason is answered with the too-many-attempts error, not with the
    reason-required one. *)
Lemma empty_reason_at_max_attempts :
  otp (guessed_wrong 5 0 42) !! _otp_key "A100"
  = Some {| email := "nurse@example.com"; code := "000042";
            expires_at := minutes 5; attempts := 5 |}
  ∧ classify (verify_otp settings_py (seconds 90) "000042" "" alice
                (initial_context alice (guessed_wrong 5 0 42))
                (guessed_wrong 5 0 42)).1
    = Some (Failed TooManyAttemptsError)
  ∧ classify (verify_otp settings_py (seconds 90) "000042" "" alice
                (initial_context alice (guessed_wrong 5 0 42))
                (guessed_wrong 5 0 42)).1
    ≠ Some (Failed ReasonRequiredError).
Proof.
  split; [vm_compute; reflexivity |].
  split; [vm_compute; reflexivity |].
  vm_compute. discriminate.
Qed.

(** ** The notifier gate *)

Lemma notify_within_cooldown cfg now sent saved profile evt log_obj db :
  Text.nonempty (owner_email profile) = true ->
  existsb (recent_notified profile evt (now - cooldown_of cfg)) db = true ->
  _notify_owner_if_needed cfg now sent saved profile evt log_obj db
  = (log_obj, db, []).
Proof.
  intros Ho Hrecent. unfold _notify_owner_if_needed, cooldown_of in *.
  by rewrite Ho, Hrecent.
Qed.

Lemma notify_after_cooldown cfg now sent saved profile evt log_obj db :
  Text.nonempty (owner_email profile) = true ->
  existsb (recent_notified profile evt (now - cooldown_of cfg)) db = false ->
  (_notify_owner_if_needed cfg now sent saved profile evt log_obj db).2
  = [access_mail cfg profile log_obj].
Proof.
  intros Ho Hrecent. unfold _notify_owner_if_needed, cooldown_of in *.
  rewrite Ho, Hrecent. cbn [negb]. by destruct sent, saved.
Qed.

(** What the gate does once [send_mail] has returned, delivery or not. *)
Lemma notify_marks_when_send_returns cfg now sent profile evt log_obj db :
  Text.nonempty (owner_email profile) = true ->
  existsb (recent_notified profile evt (now - cooldown_of cfg)) db = false ->
  sent ≠ SendRaised ->
  _notify_owner_if_needed cfg now sent DbOk profile evt log_obj db
  = (set_notified true log_obj, save_notified (set_notified true log_obj) db,
     [access_mail cfg profile log_obj]).
Proof.
  intros Ho Hrecent Hsent. unfold _notify_owner_if_needed, cooldown_of in *.
  rewrite Ho, Hrecent. cbn [negb]. by destruct sent.
Qed.

(** What the gate does when [send_mail] raises: the error goes no further
    and the entry stays unmarked. *)
Lemma notify_swallows_raise cfg now saved profile evt log_obj db :
  (_notify_owner_if_needed cfg now SendRaised saved profile evt log_obj db).1
  = (log_obj, db).
Proof.
  unfold _notify_owner_if_needed.
  destruct (negb _); [done |]. by destruct (existsb _ _).
Qed.

(** C9: with a cooldown of 30 minutes and an owner address, when the log
    holds a notified [doctor_view] entry of the profile created at [T] and
    no newer one, the gate called for a [doctor_view] event at
    [T + 10 min] sends nothing and marks nothing, and called at
    [T + 31 min] it sends one message, to the owner. *)
Theorem cooldown_window cfg T sent saved profile log_obj db e :
  getattr (ACCESS_NOTIFY_COOLDOWN_MINUTES cfg) 30 = 30 ->
  owner_email profile ≠ "" ->
  In e db ->
  profile_id e = pk profile ->
  event_type e = "doctor_view" ->
  notified e = true ->
  created_at e = T ->
  (∀ e', In e' db -> profile_id e' = pk profile ->
         event_type e' = "doctor_view" -> notified e' = true ->
         created_at e' <= T) ->
  _notify_owner_if_needed cfg (T + minutes 10) sent saved profile
    "doctor_view" log_obj db = (log_obj, db, [])
  ∧ (_notify_owner_if_needed cfg (T + minutes 31) sent saved profile
       "doctor_view" log_obj db).2 = [access_mail cfg profile log_obj]
  ∧ recipient_list (access_mail cfg profile log_obj) = [owner_email profile].
Proof.
  intros Hcool Howner Hin Hprof Hevt Hnot Hat Hnewest.
  assert (Ho : Text.nonempty (owner_email profile) = true).
  { by destruct (owner_email profile). }
  split; [| split; [| done]].
  - apply notify_within_cooldown; [done |].
    apply existsb_exists. exists e. split; [done |].
    unfold recent_notified, cooldown_of. rewrite Hcool, Hprof, Hevt, Hnot, Hat.
    rewrite Z.eqb_refl, String.eqb_refl. cbn [andb].
    apply Z.leb_le. unfold minutes. lia.
  - apply notify_after_cooldown; [done |].
    apply not_true_is_false. intros Hex. apply existsb_exists in Hex.
    destruct Hex as (e' & Hin' & Hrec). unfold recent_notified in Hrec.
    apply andb_prop in Hrec as [Hrec Hsince].
    apply andb_prop in Hrec as [Hrec Hn].
    apply andb_prop in Hrec as [Hpk Hev].
    apply Z.eqb_eq in Hpk. apply String.eqb_eq in Hev. apply Z.leb_le in Hsince.
    specialize (Hnewest e' Hin' Hpk Hev Hn).
    unfold cooldown_of, minutes in Hsince. rewrite Hcool in Hsince. lia.
Qed.

Lemma cooldown_window_witness :
  _notify_owner_if_needed settings_py (0 + minutes 10) Delivered DbOk alice
    "doctor_view" (viewed (minutes 10)) [viewed_notified 0; viewed (minutes 10)]
  = (viewed (minutes 10), [viewed_notified 0; viewed (minutes 10)], [])
  ∧ (_notify_owner_if_needed settings_py (0 + minutes 31) Delivered DbOk alice
       "doctor_view" (viewed (minutes 31)) [viewed_notified 0; viewed (minutes 31)]).2
    = [access_mail settings_py alice (viewed (minutes 31))].
Proof.
  split.
  - apply (cooldown_window settings_py 0 Delivered DbOk alice
             (viewed (minutes 10)) [viewed_notified 0; viewed (minutes 10)]
             (viewed_notified 0)); try reflexivity.
    + discriminate.
    + left. reflexivity.
    + intros e' [<- | [<- | []]] _ _ Hn; [vm_compute; discriminate | discriminate Hn].
  - apply (cooldown_window settings_py 0 Delivered DbOk alice
             (viewed (minutes 31)) [viewed_notified 0; viewed (minutes 31)]
             (viewed_notified 0)); try reflexivity.
    + discriminate.
    + left. reflexivity.
    + intros e' [<- | [<- | []]] _ _ Hn; [vm_compute; discriminate | discriminate Hn].
Defined.

(** C1, at a delivery failure that [fail_silently=True] hides: [send_mail]
    returns 0, and the gate marks the entry notified all the same, in
    memory and in the table.  A [doctor_profile_view] ten minutes later,
    with the mail backend working again, is then inside the cooldown and
    sends nothing: the owner is told of neither access. *)
Theorem silent_failure_marks_notified :
  _notify_owner_if_needed settings_py 0 FailedSilently DbOk alice
    "doctor_view" (viewed 0) [viewed 0]
  = (viewed_notified 0, [viewed_notified 0],
     [access_mail settings_py alice (viewed 0)])
  ∧ notified (viewed_notified 0) = true
  ∧ map notified log_after_failed_mail = [true]
  ∧ (doctor_profile_view settings_py [alice] (minutes 10) (minutes 10)
       DbOk Delivered DbOk get "A100" (granted 0 42) log_after_failed_mail).2
    = [].
Proof. repeat split; vm_compute; reflexivity. Qed.

(** C2, at [doctor_health_monitoring_view]: the row it records has the
    type [doctor_health_view], the gate is asked about [doctor_view].  The
    row it marks notified is therefore of a type the cooldown query never
    counts: a second health view one minute later notifies again, while a
    notified [doctor_view] row one minute old silences the health view. *)
Theorem health_view_gated_as_doctor_view :
  map event_type log_after_health_view = ["doctor_health_view"]
  ∧ map notified log_after_health_view = [true]
  ∧ length (doctor_health_monitoring_view settings_py [alice]
              (minutes 1) (minutes 1) DbOk Delivered DbOk get "A100"
              (granted 0 42) log_after_health_view).2 = 1%nat
  ∧ (doctor_health_monitoring_view settings_py [alice]
       (minutes 1) (minutes 1) DbOk Delivered DbOk get "A100"
       (granted 0 42) [viewed_notified 0]).2 = []
  ∧ (doctor_profile_view settings_py [alice]
       (minutes 1) (minutes 1) DbOk Delivered DbOk get "A100"
       (granted 0 42) [viewed_notified 0]).2 = [].
Proof. repeat split; vm_compute; reflexivity. Qed.

(** The three sibling views ask the gate about the type they record. *)
Lemma sibling_views_gate_on_logged_type cfg profiles weasyprint :
  doctor_profile_view cfg profiles
  = logged_access cfg profiles "doctor_view" "doctor_view"
      (fun _ => Page "medical/doctor_profile.html")
  ∧ (∃ render, doctor_profile_download cfg profiles
               = logged_access cfg profiles "download_html" "download_html" render)
  ∧ (∃ render, doctor_profile_download_pdf weasyprint cfg profiles
               = logged_access cfg profiles "download_pdf" "download_pdf" render).
Proof. split; [done |]. split; eexists; reflexivity. Qed.

(** ** Worked values *)

Example format_42 : Text.format_06d 42 = "000042".
Proof. reflexivity. Qed.

Example format_negative : Text.format_06d (-42) = "-00042".
Proof. reflexivity. Qed.

Example format_largest : Text.format_06d 999999 = "999999".
Proof. reflexivity. Qed.

Example strip_spaces : Text.strip "  a b  " = "a b".
Proof. reflexivity. Qed.

Example client_ip_forwarded :
  _client_ip {| method := "GET"; POST := ∅;
                META := {[ "HTTP_X_FORWARDED_FOR" := "1.2.3.4, 10.0.0.1" ]} |}
  = Some "1.2.3.4".
Proof. vm_compute. reflexivity. Qed.

Example granted_session_flag :
  access (granted 0 42) !! access_key "A100" = Some (VBool true)
  ∧ access (granted 0 42) !! access_email_key "A100"
    = Some (VStr "nurse@example.com")
  ∧ otp (granted 0 42) !! _otp_key "A100" = None.
Proof. repeat split; vm_compute; reflexivity. Qed.

Example five_wrong_guesses :
  attempts <$> otp (guessed_wrong 5 0 42) !! _otp_key "A100" = Some 5.
Proof. vm_compute. reflexivity. Qed.

Example sixth_guess_is_refused :
  classify (doctor_access settings_py [alice] (seconds 90) 7 Delivered
              (verify_request "000042" "routine check") "A100"
              (guessed_wrong 5 0 42)).1.1
  = Some (Failed TooManyAttemptsError).
Proof. vm_compute. reflexivity. Qed.

(** * Further properties of the views *)

Local Open Scope list_scope.

(** ** Profiles and keys *)

Lemma get_object_or_404_id profiles nid profile :
  get_object_or_404 profiles nid = Some profile -> national_id profile = nid.
Proof.
  unfold get_object_or_404. intros H. apply find_some in H as [_ H].
  by apply String.eqb_eq.
Qed.

Lemma otp_key_inj a b : _otp_key a = _otp_key b -> a = b.
Proof. unfold _otp_key. apply (inj (String.app _)). Qed.

Lemma access_key_inj a b : access_key a = access_key b -> a = b.
Proof. unfold access_key. apply (inj (String.app _)). Qed.

Lemma nonempty_ne s : Text.nonempty s = true ↔ s ≠ "".
Proof. destruct s; simpl; split; done. Qed.

(** ** [doctor_access]: what a request can and cannot do *)

(** The reply to [send_otp] is the same whatever code was drawn and
    whether or not the message was delivered. *)
Theorem send_otp_reply_hides_code cfg now rand1 rand2 sent1 sent2 e profile ctx s :
  sent1 ≠ SendRaised -> sent2 ≠ SendRaised ->
  (send_otp cfg now rand1 sent1 e profile ctx s).1.1
  = (send_otp cfg now rand2 sent2 e profile ctx s).1.1.
Proof.
  intros H1 H2. unfold send_otp.
  destruct (negb (Text.nonempty e) || negb (Text.contains "@" e)); [done |].
  by destruct sent1, sent2.
Qed.

Lemma send_otp_reply_hides_code_witness :
  (send_otp settings_py 0 42 Delivered "nurse@example.com" alice
     (initial_context alice new_session) new_session).1.1
  = (send_otp settings_py 0 999999 FailedSilently "nurse@example.com" alice
       (initial_context alice new_session) new_session).1.1.
Proof.
  apply (send_otp_reply_hides_code settings_py 0 42 999999 Delivered
           FailedSilently "nurse@example.com" alice
           (initial_context alice new_session) new_session); discriminate.
Defined.

(** A [send_otp] request whose address, once stripped, is empty or has no
    [@] is answered with status 400: the session keeps its state, pending
    challenge included, and no message is sent. *)
Theorem invalid_email_changes_nothing cfg profiles now rand sent rq nid profile s :
  get_object_or_404 profiles nid = Some profile ->
  method rq = "POST" ->
  POST rq !! "action" = Some "send_otp" ->
  Text.strip (post_or_empty rq "email") = ""
  ∨ Text.contains "@" (Text.strip (post_or_empty rq "email")) = false ->
  doctor_access cfg profiles now rand sent rq nid s
  = (Returned (Render access_template
       (with_error "Enter a valid email address to receive the OTP."
          (initial_context profile s)) 400), s, []).
Proof.
  intros Hp Hm Ha Hbad. unfold doctor_access. rewrite Hp, Hm, Ha.
  rewrite String.eqb_refl. cbv zeta. rewrite bool_decide_eq_true_2 by done.
  unfold send_otp.
  destruct Hbad as [-> | ->]; [done |]. by rewrite orb_true_r.
Qed.

Lemma invalid_email_changes_nothing_witness :
  doctor_access settings_py [alice] (seconds 30) 7 Delivered
    (send_request "   ") "A100" (issued 0 42)
  = (Returned (Render access_template
       (with_error "Enter a valid email address to receive the OTP."
          (initial_context alice (issued 0 42))) 400), issued 0 42, []).
Proof.
  apply (invalid_email_changes_nothing settings_py [alice] (seconds 30) 7
           Delivered (send_request "   ") "A100" alice (issued 0 42)).
  - reflexivity.
  - reflexivity.
  - vm_compute. reflexivity.
  - left. vm_compute. reflexivity.
Defined.

(** A request to [doctor_access] for one profile leaves the pending
    challenge of every other profile in the session as it was. *)
Theorem other_challenges_untouched cfg profiles now rand sent rq nid nid' s :
  nid' ≠ nid ->
  otp (doctor_access cfg profiles now rand sent rq nid s).1.2 !! _otp_key nid'
  = otp s !! _otp_key nid'.
Proof.
  intros Hne. unfold doctor_access.
  destruct (get_object_or_404 profiles nid) as [profile |] eqn:Hp; [| done].
  apply get_object_or_404_id in Hp.
  assert (Hk : _otp_key (national_id profile) ≠ _otp_key nid').
  { rewrite Hp. intros H. apply otp_key_inj in H. congruence. }
  destruct (String.eqb (method rq) "POST"); [| done].
  cbv zeta. case_bool_decide.
  { unfold send_otp.
    destruct (negb _ || negb _); [done |].
    destruct sent; unfold set_otp; simpl; by rewrite lookup_insert_ne. }
  case_bool_decide; [| done].
  unfold verify_otp.
  destruct (otp s !! _otp_key (national_id profile)) as [p |]; [| done].
  destruct (expires_at p <? now).
  { unfold del_otp; simpl. by rewrite lookup_delete_ne. }
  destruct (getattr (OTP_MAX_ATTEMPTS cfg) 5 <=? attempts p); [done |].
  destruct (negb (Text.nonempty _)); [done |].
  destruct (Text.nonempty _ && String.eqb _ _).
  - unfold del_otp, set_access; simpl. by rewrite lookup_delete_ne.
  - unfold set_otp; simpl. by rewrite lookup_insert_ne.
Qed.

Lemma other_challenges_untouched_witness :
  otp (doctor_access settings_py [alice] (seconds 30) 7 Delivered
         (send_request "other@example.com") "A100" (issued 0 42)).1.2
    !! _otp_key "B200"
  = otp (issued 0 42) !! _otp_key "B200".
Proof.
  apply (other_challenges_untouched settings_py [alice] (seconds 30) 7
           Delivered (send_request "other@example.com") "A100" "B200").
  discriminate.
Defined.

(** [doctor_access] sends at most one message per request, only for a
    [send_otp] action with an accepted address, and to that address
    alone: never to the owner of the profile. *)
Theorem only_send_otp_sends_mail cfg profiles now rand sent rq nid s :
  (doctor_access cfg profiles now rand sent rq nid s).2 = []
  ∨ (POST rq !! "action" = Some "send_otp"
     ∧ valid_email (Text.strip (post_or_empty rq "email"))
     ∧ ∃ m, (doctor_access cfg profiles now rand sent rq nid s).2 = [m]
            ∧ recipient_list m = [Text.strip (post_or_empty rq "email")]).
Proof.
  unfold doctor_access.
  destruct (get_object_or_404 profiles nid) as [profile |]; [| by left].
  destruct (String.eqb (method rq) "POST"); [| by left].
  cbv zeta. case_bool_decide as Ha.
  - unfold send_otp.
    destruct (Text.nonempty (Text.strip (post_or_empty rq "email"))) eqn:Hne;
      [| by left].
    destruct (Text.contains "@" (Text.strip (post_or_empty rq "email"))) eqn:Hat;
      [| by left].
    right. split; [done |]. split.
    { split; [by apply nonempty_ne | done]. }
    cbn [negb orb]. destruct sent; eexists; (split; [reflexivity | done]).
  - case_bool_decide; [| by left].
    destruct (verify_otp _ _ _ _ _ _ _). by left.
Qed.

(** [verify_otp] redirects to the doctor view exactly when a challenge is
    pending and has not expired, its attempts are below the limit, a
    reason is given and the submitted code is the stored one; any other
    reply leaves the grants of the session as they were. *)
Theorem grant_requires_matching_code cfg now code_input reason_ profile ctx s :
  ((verify_otp cfg now code_input reason_ profile ctx s).1
   = Returned (Redirect "doctor_profile" (national_id profile))
   ↔ ∃ p, otp s !! _otp_key (national_id profile) = Some p
          ∧ now <= expires_at p
          ∧ attempts p < max_attempts_of cfg
          ∧ reason_ ≠ "" ∧ code_input ≠ "" ∧ code_input = code p)
  ∧ ((verify_otp cfg now code_input reason_ profile ctx s).1
     ≠ Returned (Redirect "doctor_profile" (national_id profile)) ->
     access (verify_otp cfg now code_input reason_ profile ctx s).2 = access s).
Proof.
  unfold verify_otp, max_attempts_of.
  destruct (otp s !! _otp_key (national_id profile)) as [p |] eqn:Hp.
  2: { split; [| done]. split; [done | by intros (? & ? & _)]. }
  destruct (Z.ltb_spec (expires_at p) now).
  { split; [| done]. split; [done |]. intros (q & [= <-] & ? & _). lia. }
  destruct (Z.leb_spec (getattr (OTP_MAX_ATTEMPTS cfg) 5) (attempts p)).
  { split; [| done]. split; [done |]. intros (q & [= <-] & _ & ? & _). lia. }
  destruct reason_ as [| rc rr]; cbn [Text.nonempty negb].
  { split; [| done]. split; [done |]. by intros (q & _ & _ & _ & ? & _). }
  destruct (Text.nonempty code_input) eqn:Hne; cbn [andb].
  2: { split; [| done]. split; [done |].
       intros (q & _ & _ & _ & _ & Hc & _). apply nonempty_ne in Hc. congruence. }
  destruct (String.eqb_spec code_input (code p)) as [Heq | Hneq].
  - split; [| done]. split; [| done].
    intros _. exists p. repeat split; try done. by apply nonempty_ne.
  - split; [| done]. split; [done |].
    intros (q & [= <-] & _ & _ & _ & _ & ?). done.
Qed.

Lemma grant_requires_matching_code_witness :
  (verify_otp settings_py (seconds 30) "000042" "routine check" alice
     (initial_context alice (issued 0 42)) (issued 0 42)).1
  = Returned (Redirect "doctor_profile" (national_id alice)).
Proof.
  apply (grant_requires_matching_code settings_py (seconds 30) "000042"
           "routine check" alice (initial_context alice (issued 0 42))
           (issued 0 42)).
  exists {| email := "nurse@example.com"; code := "000042";
            expires_at := minutes 5; attempts := 0 |}.
  repeat split; try discriminate; vm_compute; reflexivity.
Defined.

(** ** Grants last as long as the session *)

Lemma send_otp_keeps_emails cfg now rand sent e profile ctx s :
  otp_all (λ p, Text.nonempty (email p) = true) s ->
  otp_all (λ p, Text.nonempty (email p) = true)
    (send_otp cfg now rand sent e profile ctx s).1.2.
Proof.
  intros Hs. unfold send_otp.
  destruct (Text.nonempty e) eqn:He; [| done].
  destruct (negb (Text.contains "@" e)); [done |]. cbn [negb orb].
  assert (Hins : otp_all (λ p, Text.nonempty (email p) = true)
    (set_otp (_otp_key (national_id profile))
       {| email := e; code := Text.format_06d rand;
          expires_at := now + minutes (getattr (OTP_TTL_MINUTES cfg) 5);
          attempts := 0 |} s)).
  { intros k p. unfold set_otp; simpl. rewrite lookup_insert.
    case_decide; [by intros [= <-] | apply Hs]. }
  by destruct sent.
Qed.

Lemma doctor_access_keeps_emails cfg profiles now rand sent rq nid s :
  otp_all (λ p, Text.nonempty (email p) = true) s ->
  otp_all (λ p, Text.nonempty (email p) = true)
    (doctor_access cfg profiles now rand sent rq nid s).1.2.
Proof.
  intros Hs. unfold doctor_access.
  destruct (get_object_or_404 profiles nid) as [profile |]; [| done].
  destruct (String.eqb (method rq) "POST"); [| done].
  cbv zeta. case_bool_decide.
  { by apply send_otp_keeps_emails. }
  case_bool_decide; [| done].
  pose proof (verify_otp_otp_all (λ p, Text.nonempty (email p) = true) cfg now
    (Text.strip (post_or_empty rq "access_code"))
    (Text.strip (post_or_empty rq "reason")) profile
    (initial_context profile s) s) as Hv.
  destruct (verify_otp _ _ _ _ _ _ _). apply Hv; [| done]. by intros p Hp _.
Qed.

Lemma reachable_emails cfg profiles s :
  reachable cfg profiles s -> otp_all (λ p, Text.nonempty (email p) = true) s.
Proof.
  induction 1 as [| s now rand sent rq nid Hr IH Hrand].
  - intros k p. unfold new_session; simpl. by rewrite lookup_empty.
  - by apply doctor_access_keeps_emails.
Qed.

Lemma insert_truthy_keeps (m : gmap string session_value) k' v' k v :
  truthy v' = true ->
  m !! k = Some v -> truthy v = true ->
  ∃ w, <[k' := v']> m !! k = Some w ∧ truthy w = true.
Proof.
  intros Hv' Hk Hv. rewrite lookup_insert. case_decide; eauto.
Qed.

(** No request to [doctor_access] takes a grant back: in a session a
    browser can hold, every entry of the [doctor_access_...] family that
    reads as true still does after the request, whatever the request and
    whichever profile it is for. *)
Theorem grant_never_revoked cfg profiles now rand sent rq nid s k v :
  reachable cfg profiles s ->
  access s !! k = Some v -> truthy v = true ->
  ∃ w, access (doctor_access cfg profiles now rand sent rq nid s).1.2 !! k = Some w
       ∧ truthy w = true.
Proof.
  intros Hr Hk Hv. pose proof (reachable_emails _ _ _ Hr) as Hemails.
  unfold doctor_access.
  destruct (get_object_or_404 profiles nid) as [profile |]; [| eauto].
  destruct (String.eqb (method rq) "POST"); [| eauto].
  cbv zeta. case_bool_decide.
  { unfold send_otp. destruct (negb _ || negb _); [eauto |].
    destruct sent; simpl; eauto. }
  case_bool_decide; [| eauto].
  unfold verify_otp.
  destruct (otp s !! _otp_key (national_id profile)) as [p |] eqn:Hp; [| eauto].
  destruct (expires_at p <? now); [simpl; eauto |].
  destruct (getattr (OTP_MAX_ATTEMPTS cfg) 5 <=? attempts p); [eauto |].
  destruct (Text.nonempty (Text.strip (post_or_empty rq "reason"))) eqn:Hreason;
    cbn [negb]; [| eauto].
  destruct (Text.nonempty _ && String.eqb _ _); [| simpl; eauto].
  unfold del_otp, set_access; simpl.
  destruct (insert_truthy_keeps (access s) (access_key (national_id profile))
              (VBool true) k v eq_refl Hk Hv) as (w1 & Hw1 & Ht1).
  destruct (insert_truthy_keeps _ (access_email_key (national_id profile))
              (VStr (email p)) k w1 (Hemails _ _ Hp) Hw1 Ht1) as (w2 & Hw2 & Ht2).
  exact (insert_truthy_keeps _ (access_reason_key (national_id profile))
           (VStr (Text.strip (post_or_empty rq "reason"))) k w2 Hreason Hw2 Ht2).
Qed.

Lemma grant_never_revoked_witness :
  ∃ w, access (doctor_access settings_py [alice] (minutes 90) 7 Delivered
                 (verify_request "123456" "again") "A100" (granted 0 42)).1.2
         !! access_key "A100" = Some w
       ∧ truthy w = true.
Proof.
  apply (grant_never_revoked settings_py [alice] (minutes 90) 7 Delivered
           (verify_request "123456" "again") "A100" (granted 0 42)
           (access_key "A100") (VBool true)).
  - unfold granted, issued.
    repeat (apply reach_request; [| lia]). apply reach_new.
  - vm_compute. reflexivity.
  - reflexivity.
Defined.

(** ** The limit on guesses *)

Lemma verify_otp_uses_a_guess cfg now c r profile ctx s :
  guesses_left cfg (national_id profile) (verify_otp cfg now c r profile ctx s).2
  + (if compared (verify_otp cfg now c r profile ctx s).1 then 1 else 0)
  <= guesses_left cfg (national_id profile) s.
Proof.
  unfold guesses_left at 2. unfold verify_otp, max_attempts_of.
  destruct (otp s !! _otp_key (national_id profile)) as [p |] eqn:Hp.
  2: { cbn [fst snd]. unfold guesses_left. rewrite Hp. unfold compared; simpl. lia. }
  destruct (Z.ltb_spec (expires_at p) now).
  { unfold guesses_left, del_otp; simpl. rewrite lookup_delete_eq.
    unfold compared; simpl. lia. }
  destruct (Z.leb_spec (getattr (OTP_MAX_ATTEMPTS cfg) 5) (attempts p)).
  { unfold guesses_left, max_attempts_of; simpl. rewrite Hp.
    unfold compared; simpl. lia. }
  destruct (negb (Text.nonempty r)).
  { unfold guesses_left, max_attempts_of; simpl. rewrite Hp.
    unfold compared; simpl. lia. }
  destruct (Text.nonempty c && String.eqb c (code p)).
  - unfold guesses_left, del_otp; simpl. rewrite lookup_delete_eq.
    unfold compared; simpl. lia.
  - unfold guesses_left, set_otp, max_attempts_of; simpl.
    rewrite lookup_insert_eq. unfold compared; simpl. lia.
Qed.

Lemma verify_run_cons cfg profile now c r rest s :
  verify_run cfg profile ((now, c, r) :: rest) s
  = ((verify_otp cfg now c r profile (initial_context profile s) s).1
       :: (verify_run cfg profile rest
             (verify_otp cfg now c r profile (initial_context profile s) s).2).1,
     (verify_run cfg profile rest
        (verify_otp cfg now c r profile (initial_context profile s) s).2).2).
Proof.
  cbn [verify_run].
  destruct (verify_otp cfg now c r profile (initial_context profile s) s) as [o s'].
  cbn [fst snd]. by destruct (verify_run cfg profile rest s').
Qed.

(** However many codes are submitted against a pending challenge, and
    whenever, at most [max_attempts - attempts] of them are compared with
    the stored code; all the others are turned away before the
    comparison.  Only a new [send_otp] gives further guesses. *)
Theorem guesses_are_limited cfg profile guesses s :
  Z.of_nat (List.length (List.filter compared (verify_run cfg profile guesses s).1))
  <= guesses_left cfg (national_id profile) s.
Proof.
  revert s. induction guesses as [| [[now c] r] rest IH]; intros s.
  - simpl. unfold guesses_left. destruct (otp s !! _); lia.
  - rewrite verify_run_cons. cbn [fst List.filter].
    pose proof (verify_otp_uses_a_guess cfg now c r profile
                  (initial_context profile s) s) as Hstep.
    specialize (IH (verify_otp cfg now c r profile (initial_context profile s) s).2).
    destruct (compared _); cbn [List.length] in *; lia.
Qed.

(** ** Blank form fields *)

Lemma lstrip_whitespace_only s : whitespace_only s = true -> Text.lstrip s = "".
Proof.
  unfold whitespace_only. induction s as [| c r IH]; simpl; [done |].
  intros H. apply andb_prop in H as [Hc Hr]. rewrite Hc. by apply IH.
Qed.

Lemma strip_whitespace_only s : whitespace_only s = true -> Text.strip s = "".
Proof. intros H. unfold Text.strip. by rewrite lstrip_whitespace_only. Qed.

(** A reason made of white space only counts as no reason: whatever code
    comes with it, the reply to [verify_otp] on a live challenge below its
    limit is the reason-required error, the session keeps its state (no
    attempt is counted) and nothing is sent. *)
Theorem blank_reason_is_missing cfg profiles now rand sent rq nid profile s p :
  get_object_or_404 profiles nid = Some profile ->
  method rq = "POST" ->
  POST rq !! "action" = Some "verify_otp" ->
  whitespace_only (post_or_empty rq "reason") = true ->
  otp s !! _otp_key (national_id profile) = Some p ->
  now <= expires_at p ->
  attempts p < max_attempts_of cfg ->
  classify (doctor_access cfg profiles now rand sent rq nid s).1.1
  = Some (Failed ReasonRequiredError)
  ∧ (doctor_access cfg profiles now rand sent rq nid s).1.2 = s
  ∧ (doctor_access cfg profiles now rand sent rq nid s).2 = [].
Proof.
  intros Hprof Hm Ha Hblank Hp Hnow Hatt. unfold doctor_access.
  rewrite Hprof, Hm, Ha, String.eqb_refl. cbv zeta.
  rewrite bool_decide_eq_false_2 by discriminate.
  rewrite bool_decide_eq_true_2 by done.
  rewrite (strip_whitespace_only _ Hblank).
  unfold verify_otp, max_attempts_of in *. rewrite Hp.
  destruct (Z.ltb_spec (expires_at p) now); [lia |].
  destruct (Z.leb_spec (getattr (OTP_MAX_ATTEMPTS cfg) 5) (attempts p)); [lia |].
  done.
Qed.

Lemma blank_reason_is_missing_witness :
  classify (doctor_access settings_py [alice] (seconds 30) 7 Delivered
              (verify_request "000042" "   ") "A100" (issued 0 42)).1.1
  = Some (Failed ReasonRequiredError)
  ∧ (doctor_access settings_py [alice] (seconds 30) 7 Delivered
       (verify_request "000042" "   ") "A100" (issued 0 42)).1.2
    = issued 0 42
  ∧ (doctor_access settings_py [alice] (seconds 30) 7 Delivered
       (verify_request "000042" "   ") "A100" (issued 0 42)).2 = [].
Proof.
  apply (blank_reason_is_missing settings_py [alice] (seconds 30) 7 Delivered
           (verify_request "000042" "   ") "A100" alice (issued 0 42)
           {| email := "nurse@example.com"; code := "000042";
              expires_at := minutes 5; attempts := 0 |});
    vm_compute; (reflexivity || discriminate).
Defined.

(** ** The notifier gate: what it touches *)

Lemma save_notified_rows log_obj db :
  Forall2 (λ e e', e' = e ∨ (log_id e = log_id log_obj
                             ∧ e' = set_notified (notified log_obj) e))
    db (save_notified log_obj db).
Proof.
  unfold save_notified. induction db as [| e db IH]; simpl; constructor; [| done].
  destruct (Z.eqb_spec (log_id e) (log_id log_obj)); [right | left]; done.
Qed.

Lemma Forall2_same_or {A} (Q : A -> A -> Prop) (l : list A) :
  Forall2 (λ e e', e' = e ∨ Q e e') l l.
Proof. induction l; constructor; auto. Qed.

(** The gate never adds, removes or reorders rows of the access log: row
    by row, the table it leaves is the table it found, except that rows
    with the primary key of [log_obj] may have their [notified] flag set.
    No flag is ever cleared, no other column is written. *)
Theorem gate_only_sets_notified cfg now sent saved profile evt log_obj db :
  Forall2 (λ e e', e' = e ∨ (log_id e = log_id log_obj
                             ∧ e' = set_notified true e))
    db (_notify_owner_if_needed cfg now sent saved profile evt log_obj db).1.2.
Proof.
  unfold _notify_owner_if_needed.
  destruct (negb _); [apply Forall2_same_or |].
  destruct (existsb _ _); [apply Forall2_same_or |].
  destruct sent, saved; simpl; try apply Forall2_same_or;
    apply (save_notified_rows (set_notified true log_obj) db).
Qed.

(** The gate sends at most one message, and only to the owner's address;
    for a profile without an owner address it does nothing at all. *)
Theorem gate_mails_only_the_owner cfg now sent saved profile evt log_obj db :
  ((_notify_owner_if_needed cfg now sent saved profile evt log_obj db).2 = []
   ∨ (_notify_owner_if_needed cfg now sent saved profile evt log_obj db).2
     = [access_mail cfg profile log_obj])
  ∧ recipient_list (access_mail cfg profile log_obj) = [owner_email profile]
  ∧ (owner_email profile = "" ->
     _notify_owner_if_needed cfg now sent saved profile evt log_obj db
     = (log_obj, db, [])).
Proof.
  unfold _notify_owner_if_needed. split; [| split; [done |]].
  - destruct (negb _); [by left |].
    destruct (existsb _ _); [by left |]. right. by destruct sent, saved.
  - by intros ->.
Qed.

Lemma gate_mails_only_the_owner_witness :
  _notify_owner_if_needed settings_py 0 Delivered DbOk
    {| pk := 2; full_name := "Bob"; national_id := "B200"; owner_email := "" |}
    "doctor_view" (viewed 0) [viewed 0]
  = (viewed 0, [viewed 0], []).
Proof.
  apply (gate_mails_only_the_owner settings_py 0 Delivered DbOk
           {| pk := 2; full_name := "Bob"; national_id := "B200";
              owner_email := "" |} "doctor_view" (viewed 0) [viewed 0]).
  reflexivity.
Defined.

Lemma existsb_of_pair profile evt since db :
  existsb (recent_notified profile evt since) db
  = existsb (recent_notified profile evt since)
      (List.filter (of_pair profile evt) db).
Proof.
  induction db as [| e db IH]; [done |]. cbn [existsb List.filter].
  destruct (of_pair profile evt e) eqn:Hpair; cbn [existsb]; rewrite IH; [done |].
  unfold recent_notified. unfold of_pair in Hpair. by rewrite Hpair.
Qed.

(** The cooldown is kept per profile and event type: the gate decides, and
    writes its message, from the rows of that profile and that type alone.
    Two tables that agree on those rows get the same decision, whatever
    other profiles and other kinds of access have logged. *)
Theorem gate_is_scoped_to_the_pair cfg now sent saved profile evt log_obj db1 db2 :
  List.filter (of_pair profile evt) db1 = List.filter (of_pair profile evt) db2 ->
  (_notify_owner_if_needed cfg now sent saved profile evt log_obj db1).2
  = (_notify_owner_if_needed cfg now sent saved profile evt log_obj db2).2
  ∧ (_notify_owner_if_needed cfg now sent saved profile evt log_obj db1).1.1
    = (_notify_owner_if_needed cfg now sent saved profile evt log_obj db2).1.1.
Proof.
  intros Hsame. unfold _notify_owner_if_needed.
  destruct (negb _); [done |].
  rewrite (existsb_of_pair _ _ _ db1), (existsb_of_pair _ _ _ db2), Hsame.
  destruct (existsb _ _); [done |]. by destruct sent, saved.
Qed.

Lemma gate_is_scoped_to_the_pair_witness :
  (_notify_owner_if_needed settings_py (minutes 1) Delivered DbOk alice
     "download_pdf" (viewed (minutes 1)) [viewed_notified 0]).2
  = (_notify_owner_if_needed settings_py (minutes 1) Delivered DbOk alice
       "download_pdf" (viewed (minutes 1)) []).2.
Proof.
  apply (gate_is_scoped_to_the_pair settings_py (minutes 1) Delivered DbOk
           alice "download_pdf" (viewed (minutes 1)) [viewed_notified 0] []).
  reflexivity.
Defined.

(** ** The notifier gate: the edge of the cooldown *)

(** The cooldown window is closed at its far end.  When the newest
    notified row of the profile and event type was created at [T], the
    gate stays silent up to and including [T + cooldown], and sends from
    the next microsecond on. *)
Theorem cooldown_boundary cfg now T sent saved profile evt log_obj db e :
  owner_email profile ≠ "" ->
  In e db ->
  of_pair profile evt e = true -> notified e = true -> created_at e = T ->
  (∀ e', In e' db -> of_pair profile evt e' = true -> notified e' = true ->
         created_at e' <= T) ->
  (_notify_owner_if_needed cfg now sent saved profile evt log_obj db).2 = []
  ↔ now <= T + cooldown_of cfg.
Proof.
  intros Howner Hin Hpair Hnot Hat Hnewest.
  assert (Ho : Text.nonempty (owner_email profile) = true) by (by apply nonempty_ne).
  unfold _notify_owner_if_needed. rewrite Ho. cbn [negb].
  fold (cooldown_of cfg).
  destruct (existsb _ db) eqn:Hex.
  - split; [intros _ | done].
    apply existsb_exists in Hex as (e' & Hin' & Hrec).
    unfold recent_notified in Hrec.
    apply andb_prop in Hrec as [Hrec Hsince]. apply andb_prop in Hrec as [Hrec Hn].
    apply Z.leb_le in Hsince.
    specialize (Hnewest e' Hin' Hrec Hn). lia.
  - split; [by destruct sent, saved |]. intros Hnow. exfalso.
    assert (Hyes : existsb (recent_notified profile evt (now - cooldown_of cfg)) db
                   = true); [| congruence].
    apply existsb_exists. exists e. split; [done |].
    unfold recent_notified. unfold of_pair in Hpair. rewrite Hpair, Hnot.
    cbn [andb]. apply Z.leb_le. lia.
Qed.

Lemma cooldown_boundary_witness :
  (_notify_owner_if_needed settings_py (minutes 30) Delivered DbOk alice
     "doctor_view" (viewed (minutes 30)) [viewed_notified 0]).2 = []
  ↔ minutes 30 <= 0 + cooldown_of settings_py.
Proof.
  apply (cooldown_boundary settings_py (minutes 30) 0 Delivered DbOk alice
           "doctor_view" (viewed (minutes 30)) [viewed_notified 0]
           (viewed_notified 0)); try reflexivity.
  - discriminate.
  - by left.
  - intros e' [<- | []] _ _. vm_compute. discriminate.
Defined.

Lemma take_length n s : (String.length (Text.take n s) <= n)%nat.
Proof.
  revert s. induction n as [| n IH]; intros [| c r]; simpl; try lia.
  specialize (IH r). lia.
Qed.

Lemma take_all n s : (String.length s <= n)%nat -> Text.take n s = s.
Proof.
  revert s. induction n as [| n IH]; intros [| c r]; simpl; try done; [lia |].
  intros H. f_equal. apply IH. lia.
Qed.

Lemma take_prefix n s : ∃ rest, s = Text.take n s +:+ rest.
Proof.
  revert s. induction n as [| n IH]; intros [| c r]; simpl; eauto.
  destruct (IH r) as [rest Hr]. exists rest.
  change (String c r = String c (Text.take n r +:+ rest)). congruence.
Qed.

(** The user agent in the owner's message is the first 200 characters of
    the logged one: never longer, a prefix of it, and the whole of it when
    it has at most 200 characters. *)
Theorem mail_user_agent_is_truncated cfg profile log_obj :
  (String.length (mail_user_agent (access_mail cfg profile log_obj)) <= 200)%nat
  ∧ (∃ rest, user_agent log_obj
             = mail_user_agent (access_mail cfg profile log_obj) +:+ rest)
  ∧ ((String.length (user_agent log_obj) <= 200)%nat ->
     mail_user_agent (access_mail cfg profile log_obj) = user_agent log_obj).
Proof.
  unfold mail_user_agent, access_mail. cbn [message].
  split; [apply take_length |]. split; [apply take_prefix | apply take_all].
Qed.

Lemma mail_user_agent_is_truncated_witness :
  mail_user_agent (access_mail settings_py alice (viewed 0)) = "Mozilla/5.0".
Proof.
  apply (mail_user_agent_is_truncated settings_py alice (viewed 0)).
  vm_compute. lia.
Defined.

(** ** The access log under the protected views *)

Lemma next_id_fresh db e : In e db -> log_id e < next_id db.
Proof.
  unfold next_id. induction db as [| x db IH]; [done |].
  cbn [fold_right]. intros [-> | Hin]; [lia |]. specialize (IH Hin). lia.
Qed.

Lemma save_notified_old_rows x db :
  (∀ e, In e db -> log_id e ≠ log_id x) -> save_notified x db = db.
Proof.
  unfold save_notified. induction db as [| e db IH]; intros Hfresh; [done |].
  cbn [map]. rewrite IH by (intros; apply Hfresh; by right).
  destruct (Z.eqb_spec (log_id e) (log_id x)) as [Heq | _]; [| done].
  exfalso. apply (Hfresh e); [by left | done].
Qed.

Lemma save_notified_new_row x db :
  (∀ e, In e db -> log_id e ≠ log_id x) ->
  save_notified (set_notified true x) (db ++ [x]) = db ++ [set_notified true x].
Proof.
  intros Hfresh. unfold save_notified. rewrite map_app.
  change (map _ db) with (save_notified (set_notified true x) db).
  rewrite save_notified_old_rows by done.
  cbn [map set_notified log_id notified]. by rewrite Z.eqb_refl.
Qed.

Lemma gate_on_new_row cfg now sent saved profile evt db row :
  (∀ e, In e db -> log_id e ≠ log_id row) ->
  (_notify_owner_if_needed cfg now sent saved profile evt row (db ++ [row])).1.2
  = db ++ [row]
  ∨ (_notify_owner_if_needed cfg now sent saved profile evt row (db ++ [row])).1.2
    = db ++ [set_notified true row].
Proof.
  intros Hfresh. unfold _notify_owner_if_needed.
  destruct (negb _); [by left |].
  destruct (existsb _ _); [by left |].
  destruct sent, saved; simpl; try (by left);
    right; by apply save_notified_new_row.
Qed.

(** The protected views only ever append to the access log.  Without the
    grant nothing is logged and nothing is sent; with it, and when the
    insert goes through, the table is the old one, row for row, followed
    by one new row: a fresh primary key above all others, the event type
    of the view, and the verifier address and reason of the session. *)
Theorem access_log_is_append_only cfg profiles logged gated render t_log t_notify
    created sent saved rq nid s db :
  let result :=
    logged_access cfg profiles logged gated render t_log t_notify
      created sent saved rq nid s db in
  (access_granted s nid = false ->
   result = (Returned (Redirect "doctor_access" nid), db, []))
  ∧ (result.1.2 = db
     ∨ ∃ row, result.1.2 = db ++ [row]
              ∧ (∀ e, In e db -> log_id e < log_id row)
              ∧ event_type row = logged
              ∧ created_at row = t_log
              ∧ viewer_email row = session_text s (access_email_key nid)
              ∧ reason row = session_text s (access_reason_key nid))
  ∧ (access_granted s nid = true ->
     is_Some (get_object_or_404 profiles nid) -> created = DbOk ->
     List.length result.1.2 = S (List.length db)).
Proof.
  cbv zeta. unfold logged_access. fold (access_granted s nid).
  destruct (access_granted s nid); cbn [negb].
  2: { split; [done |]. split; [by left | done]. }
  split; [done |].
  destruct (get_object_or_404 profiles nid) as [profile |].
  2: { split; [by left |]. by intros _ [? ?]. }
  destruct created.
  2: { split; [by left | done]. }
  set (row := create db t_log profile logged _ _ _ _).
  assert (Hfresh : ∀ e, In e db -> log_id e ≠ log_id row).
  { intros e Hin. apply next_id_fresh in Hin. unfold row; simpl. lia. }
  pose proof (gate_on_new_row cfg t_notify sent saved profile gated db row Hfresh)
    as Hgate.
  destruct (_notify_owner_if_needed _ _ _ _ _ _ _ _) as [[lo db'] mails].
  cbn [fst snd] in *.
  destruct Hgate as [-> | ->].
  - split; [| intros _ _ _; rewrite length_app; simpl; lia].
    right. exists row. repeat split; try done.
    intros e Hin. apply next_id_fresh in Hin. by unfold row.
  - split; [| intros _ _ _; rewrite length_app; simpl; lia].
    right. exists (set_notified true row). repeat split; try done.
    intros e Hin. apply next_id_fresh in Hin. by unfold row.
Qed.

Lemma access_log_is_append_only_witness :
  List.length (doctor_profile_download settings_py [alice] 0 0 DbOk
                 Delivered DbOk get "A100" (granted 0 42) [viewed 0]).1.2
  = 2%nat.
Proof.
  apply (access_log_is_append_only settings_py [alice] "download_html"
           "download_html"
           (fun p => Attachment "text/html; charset=utf-8"
                       ("medical_profile_" +:+ national_id p +:+ ".html"))
           0 0 DbOk Delivered DbOk get "A100" (granted 0 42) [viewed 0]).
  - vm_compute. reflexivity.
  - vm_compute. eauto.
  - reflexivity.
Defined.


Lemma session_text_str (s : session) k v :
  access s !! k = Some (VStr v) -> session_text s k = v.
Proof. unfold session_text. by intros ->. Qed.

(** From the grant to the audit trail: in a session holding the grant for
    a profile whose owner has an address, a first [doctor_profile_view]
    outside any cooldown appends one [doctor_view] row carrying the
    verifier address and the reason of the grant, marks it notified and
    sends the owner one message about it; a second view inside the
    cooldown of the first sends nothing. *)
Theorem granted_view_logs_and_notifies_once cfg profiles profile nid e r rq rq2 s db
    t_log t_notify t_log2 t_notify2 :
  get_object_or_404 profiles nid = Some profile ->
  owner_email profile ≠ "" ->
  access s !! access_key nid = Some (VBool true) ->
  access s !! access_email_key nid = Some (VStr e) ->
  access s !! access_reason_key nid = Some (VStr r) ->
  existsb (recent_notified profile "doctor_view" (t_notify - cooldown_of cfg)) db
  = false ->
  t_notify2 - cooldown_of cfg <= t_log ->
  doctor_profile_view cfg profiles t_log t_notify DbOk Delivered DbOk rq nid s db
  = (Returned (Page "medical/doctor_profile.html"),
     db ++ [set_notified true
              (create db t_log profile "doctor_view" e r
                 (_client_ip rq) (_user_agent rq))],
     [access_mail cfg profile
        (create db t_log profile "doctor_view" e r
           (_client_ip rq) (_user_agent rq))])
  ∧ (doctor_profile_view cfg profiles t_log2 t_notify2 DbOk Delivered DbOk
       rq2 nid s
       (db ++ [set_notified true
                 (create db t_log profile "doctor_view" e r
                    (_client_ip rq) (_user_agent rq))])).2 = [].
Proof.
  intros Hprof Howner Hflag Hemail Hreason Hquiet Hinside.
  assert (Ho : Text.nonempty (owner_email profile) = true) by (by apply nonempty_ne).
  set (row := create db t_log profile "doctor_view" e r
                (_client_ip rq) (_user_agent rq)).
  assert (Hfresh : ∀ x, In x db -> log_id x ≠ log_id row).
  { intros x Hin. apply next_id_fresh in Hin. unfold row; simpl. lia. }
  unfold doctor_profile_view, logged_access.
  rewrite Hflag, Hprof. cbn [fmap option_fmap option_map default truthy negb].
  rewrite (session_text_str s _ e Hemail), (session_text_str s _ r Hreason).
  fold row. split.
  - rewrite notify_marks_when_send_returns; [| done | | discriminate].
    + by rewrite save_notified_new_row.
    + rewrite existsb_app, Hquiet. cbn [existsb orb].
      unfold recent_notified, row; simpl. by rewrite andb_false_r.
  - rewrite notify_within_cooldown; [done | done |].
    rewrite existsb_app. apply orb_true_iff. left.
    rewrite existsb_app. apply orb_true_iff. right.
    cbn [existsb]. unfold recent_notified, row; simpl.
    rewrite Z.eqb_refl. cbn [andb]. rewrite orb_false_r. apply Z.leb_le. lia.
Qed.

Lemma granted_view_logs_and_notifies_once_witness :
  (doctor_profile_view settings_py [alice] (minutes 10) (minutes 10) DbOk
     Delivered DbOk get "A100" (granted 0 42)
     ([] ++ [set_notified true
               (create [] 0 alice "doctor_view" "nurse@example.com"
                  "routine check" (_client_ip get) (_user_agent get))])).2
  = [].
Proof.
  apply (granted_view_logs_and_notifies_once settings_py [alice] alice "A100"
           "nurse@example.com" "routine check" get get (granted 0 42) []
           0 0 (minutes 10) (minutes 10)); try (vm_compute; reflexivity).
  - discriminate.
  - vm_compute. discriminate.
Defined.

(** ** Session keys of different profiles *)

Lemma contains_app_r c a b :
  Text.contains c b = true -> Text.contains c (a +:+ b) = true.
Proof.
  intros Hb. induction a as [| d a IH]; simpl; [done |].
  by rewrite IH, orb_true_r.
Qed.

Lemma id_char_not_underscore c : id_char c = true -> Ascii.eqb "_" c = false.
Proof.
  destruct c as [[] [] [] [] [] [] [] []]; vm_compute; congruence.
Qed.

Lemma national_id_regex_no_underscore s :
  all_chars id_char (before_final_newline s) = true ->
  Text.contains "_" s = false.
Proof.
  induction s as [| c r IH]; [done |].
  cbn [before_final_newline Text.contains].
  destruct r as [| c' r'].
  - destruct (Ascii.eqb_spec c "010") as [-> | _]; [done |].
    cbn [all_chars]. intros H. apply andb_prop in H as [Hc _].
    by rewrite (id_char_not_underscore c Hc).
  - cbn [all_chars]. intros H. apply andb_prop in H as [Hc Hr].
    rewrite (id_char_not_underscore c Hc). cbn [orb]. by apply IH.
Qed.

(** The session keys of one profile can be those of another: the key that
    holds the verifier address for [nid] is the key that holds the flag
    for [nid ++ "_email"], and likewise for the reason.  A successful
    verification for [nid] therefore makes the session check of the
    protected views pass for those two national ids as well. *)
Theorem grant_opens_suffixed_ids cfg now reason_ profile ctx s p :
  otp s !! _otp_key (national_id profile) = Some p ->
  now <= expires_at p ->
  attempts p < max_attempts_of cfg ->
  reason_ ≠ "" -> code p ≠ "" -> email p ≠ "" ->
  access_granted (verify_otp cfg now (code p) reason_ profile ctx s).2
    (national_id profile) = true
  ∧ access_granted (verify_otp cfg now (code p) reason_ profile ctx s).2
      (national_id profile +:+ "_email") = true
  ∧ access_granted (verify_otp cfg now (code p) reason_ profile ctx s).2
      (national_id profile +:+ "_reason") = true.
Proof.
  intros Hp Hnow Hatt Hreason Hcode Hemail.
  apply nonempty_ne in Hreason, Hcode, Hemail.
  unfold verify_otp, max_attempts_of in *. rewrite Hp.
  destruct (Z.ltb_spec (expires_at p) now); [lia |].
  destruct (Z.leb_spec (getattr (OTP_MAX_ATTEMPTS cfg) 5) (attempts p)); [lia |].
  rewrite Hreason, Hcode, String.eqb_refl. cbn [negb andb snd].
  pose proof (access_key_ne_email (national_id profile)).
  pose proof (access_key_ne_reason (national_id profile)).
  pose proof (access_email_ne_reason (national_id profile)).
  unfold access_granted, del_otp, set_access; cbn [access].
  change (access_key (national_id profile +:+ "_email"))
    with (access_email_key (national_id profile)).
  change (access_key (national_id profile +:+ "_reason"))
    with (access_reason_key (national_id profile)).
  repeat split.
  - rewrite !lookup_insert_ne by done. by rewrite lookup_insert_eq.
  - rewrite lookup_insert_ne by done. by rewrite lookup_insert_eq.
  - by rewrite lookup_insert_eq.
Qed.

Lemma grant_opens_suffixed_ids_witness :
  access_granted (verify_otp settings_py (seconds 30) "000042" "routine check"
                    alice (initial_context alice (issued 0 42)) (issued 0 42)).2
    "A100_email" = true.
Proof.
  apply (grant_opens_suffixed_ids settings_py (seconds 30) "routine check" alice
           (initial_context alice (issued 0 42)) (issued 0 42)
           {| email := "nurse@example.com"; code := "000042";
              expires_at := minutes 5; attempts := 0 |});
    try discriminate; vm_compute; (reflexivity || discriminate).
Defined.

(** A national id the profile form accepts (letters, digits and hyphens)
    is out of reach of that overlap: whatever is submitted to
    [verify_otp] for another profile, and whatever the outcome, the flag
    the protected views read for such an id is left as it was. *)
Theorem form_valid_ids_are_isolated cfg now code_input reason_ profile ctx s nid' :
  national_id_regex nid' = true ->
  nid' ≠ national_id profile ->
  access (verify_otp cfg now code_input reason_ profile ctx s).2 !! access_key nid'
  = access s !! access_key nid'
  ∧ access_granted (verify_otp cfg now code_input reason_ profile ctx s).2 nid'
    = access_granted s nid'.
Proof.
  intros Hvalid Hne.
  assert (Hlookup :
    access (verify_otp cfg now code_input reason_ profile ctx s).2 !! access_key nid'
    = access s !! access_key nid');
    [| split; [done | unfold access_granted; by rewrite Hlookup]].
  unfold national_id_regex in Hvalid. apply andb_prop in Hvalid as [_ Hchars].
  apply national_id_regex_no_underscore in Hchars.
  assert (H1 : access_key (national_id profile) ≠ access_key nid').
  { intros H. apply access_key_inj in H. congruence. }
  assert (H2 : access_email_key (national_id profile) ≠ access_key nid').
  { change (access_email_key (national_id profile))
      with (access_key (national_id profile +:+ "_email")).
    intros H. apply access_key_inj in H. subst nid'.
    rewrite contains_app_r in Hchars; done. }
  assert (H3 : access_reason_key (national_id profile) ≠ access_key nid').
  { change (access_reason_key (national_id profile))
      with (access_key (national_id profile +:+ "_reason")).
    intros H. apply access_key_inj in H. subst nid'.
    rewrite contains_app_r in Hchars; done. }
  unfold verify_otp.
  destruct (otp s !! _otp_key (national_id profile)) as [p |]; [| done].
  destruct (expires_at p <? now); [done |].
  destruct (getattr (OTP_MAX_ATTEMPTS cfg) 5 <=? attempts p); [done |].
  destruct (negb (Text.nonempty reason_)); [done |].
  destruct (Text.nonempty code_input && String.eqb code_input (code p)); [| done].
  unfold del_otp, set_access; cbn [access snd].
  by rewrite !lookup_insert_ne.
Qed.

Lemma form_valid_ids_are_isolated_witness :
  access_granted (verify_otp settings_py (seconds 30) "000042" "routine check"
                    alice (initial_context alice (issued 0 42)) (issued 0 42)).2
    "A100-email"
  = access_granted (issued 0 42) "A100-email".
Proof.
  apply (form_valid_ids_are_isolated settings_py (seconds 30) "000042"
           "routine check" alice (initial_context alice (issued 0 42))
           (issued 0 42) "A100-email").
  - vm_compute. reflexivity.
  - discriminate.
Defined.

(** ** [_client_ip] *)

Lemma before_comma_first ip rest :
  Text.contains "," ip = false -> before_comma (ip +:+ "," +:+ rest) = ip.
Proof.
  induction ip as [| c ip IH]; [done |].
  cbn [Text.contains String.append before_comma]. intros H.
  apply orb_false_elim in H as [Hc Hip].
  change (String c ip +:+ "," +:+ rest) with (String c (ip +:+ "," +:+ rest)).
  cbn [before_comma]. rewrite Ascii.eqb_sym, Hc. f_equal. by apply IH.
Qed.

(** The logged address is the first entry of [X-Forwarded-For], without
    the white space around it, whenever that header is present and not
    empty, whatever [REMOTE_ADDR] says; only without the header, or with
    an empty one, is it [REMOTE_ADDR]. *)
Theorem client_ip_is_first_forwarded rq :
  (∀ ip rest,
     META rq !! "HTTP_X_FORWARDED_FOR" = Some (ip +:+ "," +:+ rest) ->
     Text.contains "," ip = false ->
     _client_ip rq = Some (Text.strip ip))
  ∧ (∀ ip,
       META rq !! "HTTP_X_FORWARDED_FOR" = Some ip ->
       ip ≠ "" -> Text.contains "," ip = false ->
       _client_ip rq = Some (Text.strip ip))
  ∧ (META rq !! "HTTP_X_FORWARDED_FOR" = None
     ∨ META rq !! "HTTP_X_FORWARDED_FOR" = Some "" ->
     _client_ip rq = META rq !! "REMOTE_ADDR").
Proof.
  unfold _client_ip. repeat split.
  - intros ip rest -> Hip. rewrite before_comma_first by done.
    by destruct ip.
  - intros ip -> Hne Hip. apply nonempty_ne in Hne. rewrite Hne.
    f_equal. f_equal. clear Hne.
    induction ip as [| c ip IH]; [done |].
    cbn [Text.contains before_comma] in *.
    apply orb_false_elim in Hip as [Hc Hip].
    rewrite Ascii.eqb_sym, Hc. f_equal. by apply IH.
  - by intros [-> | ->].
Qed.

Lemma client_ip_is_first_forwarded_witness :
  _client_ip {| method := "GET"; POST := ∅;
                META := {[ "HTTP_X_FORWARDED_FOR" := " 1.2.3.4 , 10.0.0.1";
                           "REMOTE_ADDR" := "10.0.0.7" ]} |}
  = Some (Text.strip " 1.2.3.4 ").
Proof.
  apply (client_ip_is_first_forwarded
           {| method := "GET"; POST := ∅;
              META := {[ "HTTP_X_FORWARDED_FOR" := " 1.2.3.4 , 10.0.0.1";
                         "REMOTE_ADDR" := "10.0.0.7" ]} |})
    with (rest := " 10.0.0.1").
  - vm_compute. reflexivity.
  - reflexivity.
Defined.

(** ** [get_age] *)

Lemma tuple_lt_spec a b :
  tuple_lt a b = true ↔ a.1 < b.1 ∨ (a.1 = b.1 ∧ a.2 < b.2).
Proof.
  unfold tuple_lt. rewrite orb_true_iff, andb_true_iff.
  rewrite !Z.ltb_lt, Z.eqb_eq. done.
Qed.

(** The age is negative exactly for a date of birth after [today]: from
    the day of birth on it is at least zero. *)
Theorem age_is_nonnegative_from_birth dob today a :
  get_age (Some dob) today = Some a ->
  0 <= a ↔ date_le dob today.
Proof.
  unfold get_age, date_le. intros [= <-].
  destruct (tuple_lt (month today, day today) (month dob, day dob)) eqn:Hlt.
  - apply tuple_lt_spec in Hlt. simpl in Hlt. lia.
  - assert (Hge : ¬ (month today < month dob
                     ∨ (month today = month dob ∧ day today < day dob))).
    { intros H. apply (tuple_lt_spec (month today, day today)
                         (month dob, day dob)) in H. congruence. }
    lia.
Qed.

Lemma age_is_nonnegative_from_birth_witness :
  0 <= 23 ↔ date_le {| year := 2000; month := 2; day := 29 |}
                    {| year := 2024; month := 2; day := 28 |}.
Proof.
  apply (age_is_nonnegative_from_birth
           {| year := 2000; month := 2; day := 29 |}
           {| year := 2024; month := 2; day := 28 |} 23).
  reflexivity.
Defined.

(** The age never goes down as the days pass, and from one day to a later
    one it grows by at most the number of calendar years begun between
    them. *)
Theorem age_grows_with_time dob t1 t2 a1 a2 :
  date_le t1 t2 ->
  get_age (Some dob) t1 = Some a1 ->
  get_age (Some dob) t2 = Some a2 ->
  a1 <= a2 <= a1 + (year t2 - year t1) + 1.
Proof.
  unfold get_age, date_le. intros Hle [= <-] [= <-].
  destruct (tuple_lt (month t1, day t1) (month dob, day dob)) eqn:H1;
    destruct (tuple_lt (month t2, day t2) (month dob, day dob)) eqn:H2;
    try lia.
  apply (tuple_lt_spec (month t2, day t2) (month dob, day dob)) in H2.
  assert (Hge : ¬ (month t1 < month dob
                   ∨ (month t1 = month dob ∧ day t1 < day dob))).
  { intros H. apply (tuple_lt_spec (month t1, day t1)
                       (month dob, day dob)) in H. congruence. }
  simpl in H2. lia.
Qed.

Lemma age_grows_with_time_witness :
  23 <= 24 <= 23 + (2024 - 2024) + 1.
Proof.
  apply (age_grows_with_time {| year := 2000; month := 2; day := 29 |}
           {| year := 2024; month := 2; day := 28 |}
           {| year := 2024; month := 3; day := 1 |} 23 24).
  - right. split; [reflexivity |]. left. simpl. lia.
  - reflexivity.
  - reflexivity.
Defined.

(** ** [public_profile] and the gate *)

(** A public view never stands in the way of a notification, nor causes
    one: it sends nothing itself, the row it appends is unmarked, and the
    gate decides the same on the table it leaves as on the table it
    found, for every profile and event type. *)
Theorem public_views_leave_the_gate_alone cfg profiles t_log created rq nid db
    now sent saved profile evt log_obj :
  (_notify_owner_if_needed cfg now sent saved profile evt log_obj
     (public_profile profiles t_log created rq nid db).2).2
  = (_notify_owner_if_needed cfg now sent saved profile evt log_obj db).2.
Proof.
  assert (Hex : ∀ since,
    existsb (recent_notified profile evt since)
      (public_profile profiles t_log created rq nid db).2
    = existsb (recent_notified profile evt since) db).
  { intros since. unfold public_profile.
    destruct (get_object_or_404 profiles nid) as [p |]; [| done].
    destruct created; [| done]. cbn [snd].
    rewrite existsb_app. cbn [existsb]. unfold recent_notified at 2; simpl.
    by rewrite andb_false_r, !orb_false_r. }
  unfold _notify_owner_if_needed. rewrite Hex.
  destruct (negb _); [done |]. destruct (existsb _ _); [done |].
  by destruct sent, saved.
Qed.

(** ** White space around the submitted code *)

Lemma lstrip_app_whitespace a s :
  whitespace_only a = true -> Text.lstrip (a +:+ s) = Text.lstrip s.
Proof.
  unfold whitespace_only. induction a as [| c a IH]; [done |].
  cbn [all_chars]. intros H. apply andb_prop in H as [Hc Ha].
  change (String c a +:+ s) with (String c (a +:+ s)).
  cbn [Text.lstrip]. rewrite Hc. by apply IH.
Qed.

Lemma rstrip_whitespace_only s : whitespace_only s = true -> Text.rstrip s = "".
Proof.
  unfold whitespace_only. induction s as [| c r IH]; [done |].
  cbn [all_chars Text.rstrip]. intros H. apply andb_prop in H as [Hc Hr].
  by rewrite IH, Hc.
Qed.

Lemma is_digit_not_space c : Text.is_digit c = true -> Text.is_space c = false.
Proof.
  destruct c as [[] [] [] [] [] [] [] []]; vm_compute; congruence.
Qed.

Lemma rstrip_digits_app c b :
  Text.all_digits c = true -> whitespace_only b = true ->
  Text.rstrip (c +:+ b) = c.
Proof.
  intros Hc Hb. induction c as [| d r IH].
  - by apply rstrip_whitespace_only.
  - cbn [Text.all_digits] in Hc. apply andb_prop in Hc as [Hd Hr].
    change (String d r +:+ b) with (String d (r +:+ b)).
    cbn [Text.rstrip]. rewrite (IH Hr).
    destruct r; [| done]. by rewrite (is_digit_not_space d Hd).
Qed.

Lemma strip_padded_digits a c b :
  whitespace_only a = true -> whitespace_only b = true ->
  Text.all_digits c = true ->
  Text.strip (a +:+ c +:+ b) = c.
Proof.
  intros Ha Hb Hc. unfold Text.strip. rewrite lstrip_app_whitespace by done.
  destruct c as [| d r]; cbn [Text.all_digits] in Hc.
  - change ("" +:+ b) with b. rewrite lstrip_whitespace_only by done. done.
  - pose proof Hc as Hc'. apply andb_prop in Hc' as [Hd _].
    change (String d r +:+ b) with (String d (r +:+ b)).
    cbn [Text.lstrip]. rewrite (is_digit_not_space d Hd).
    change (String d (r +:+ b)) with (String d r +:+ b).
    by apply rstrip_digits_app.
Qed.

(** White space typed or pasted around the code does no harm: on a live
    challenge below its limit, with a reason, a code field holding the
    stored code between runs of white space is accepted like the code
    itself. *)
Theorem padded_code_is_accepted cfg profiles now rand sent rq nid profile s p a b :
  get_object_or_404 profiles nid = Some profile ->
  method rq = "POST" ->
  POST rq !! "action" = Some "verify_otp" ->
  post_or_empty rq "access_code" = a +:+ code p +:+ b ->
  whitespace_only a = true -> whitespace_only b = true ->
  six_digits (code p) ->
  Text.strip (post_or_empty rq "reason") ≠ "" ->
  otp s !! _otp_key (national_id profile) = Some p ->
  now <= expires_at p ->
  attempts p < max_attempts_of cfg ->
  (doctor_access cfg profiles now rand sent rq nid s).1.1
  = Returned (Redirect "doctor_profile" nid)
  ∧ access_granted (doctor_access cfg profiles now rand sent rq nid s).1.2 nid
    = true.
Proof.
  intros Hprof Hm Ha Hfield Hwa Hwb [Hlen Hdig] Hreason Hp Hnow Hatt.
  pose proof (get_object_or_404_id _ _ _ Hprof) as Hid.
  pose proof (six_digits_nonempty (code p) (conj Hlen Hdig)) as Hne.
  apply nonempty_ne in Hreason.
  unfold doctor_access.
  rewrite Hprof, Hm, Ha, String.eqb_refl. cbv zeta.
  rewrite bool_decide_eq_false_2 by discriminate.
  rewrite bool_decide_eq_true_2 by done.
  rewrite Hfield, strip_padded_digits by done.
  unfold verify_otp, max_attempts_of in *. rewrite Hp.
  destruct (Z.ltb_spec (expires_at p) now); [lia |].
  destruct (Z.leb_spec (getattr (OTP_MAX_ATTEMPTS cfg) 5) (attempts p)); [lia |].
  rewrite Hreason, Hne, String.eqb_refl. cbn [negb andb fst snd].
  rewrite Hid. split; [done |].
  pose proof (access_key_ne_email nid). pose proof (access_key_ne_reason nid).
  unfold access_granted, del_otp, set_access; cbn [access].
  rewrite !lookup_insert_ne by done. by rewrite lookup_insert_eq.
Qed.

Lemma padded_code_is_accepted_witness :
  (doctor_access settings_py [alice] (seconds 30) 7 Delivered
     (verify_request " 000042  " "routine check") "A100" (issued 0 42)).1.1
  = Returned (Redirect "doctor_profile" "A100").
Proof.
  apply (padded_code_is_accepted settings_py [alice] (seconds 30) 7 Delivered
           (verify_request " 000042  " "routine check") "A100" alice
           (issued 0 42)
           {| email := "nurse@example.com"; code := "000042";
              expires_at := minutes 5; attempts := 0 |} " " "  ");
    try (vm_compute; reflexivity).
  - split; reflexivity.
  - vm_compute. discriminate.
  - vm_compute. discriminate.
Defined.
